(** * weather_gui.py: multi-threaded mock weather collector

    A shallow embedding of [src/weather_gui.py].  The Python objects become
    records, attribute assignment becomes explicit state passing, and the
    services of the Python runtime the program calls ([str], [int], [%],
    [random], [datetime], [queue.Queue], [threading.Thread], the Tk widgets)
    are modelled by their documented behaviour.  Strings are byte strings
    holding the UTF-8 encoding of the Python text; the text of the Spinbox,
    which only [int] reads, is kept as the characters [int] tells apart. *)

From Stdlib Require Import Ascii ZArith QArith Qround Qcanon Lia Lqa.
From stdpp Require Import base numbers list strings pretty.

Local Open Scope Z_scope.

(** ** The Python runtime *)

Module Py.

(** Exceptions the modelled calls can raise. *)
Inductive exn : Set :=
| ValueError
| ZeroDivisionError
| IndexError
| RuntimeError
| AttributeError
| OverflowError.

(** The outcome of a method that mutates an object: it returns, or it
    raises and leaves the object as mutated up to the [raise]. *)
Inductive Result (S : Type) : Type :=
| Ok (s : S)
| Raise (e : exn) (s : S).
Arguments Ok {S} s.
Arguments Raise {S} e s.

Definition state_of {S : Type} (r : Result S) : S :=
  match r with Ok s => s | Raise _ s => s end.

Definition completed {S : Type} (r : Result S) : bool :=
  match r with Ok _ => true | Raise _ _ => false end.

(** [str(n)] for an [int]. *)
Definition str (n : Z) : string := pretty n.

(** *** [int(s)] for a [str]

    [int] first rewrites the characters outside ASCII: white space becomes
    a blank, a decimal digit of any script becomes the ASCII digit of its
    value, and anything else makes the text invalid.  A character of a
    Python text is therefore kept as what this step makes of it: a
    character up to U+00FF by its code, and a character beyond as a digit
    with its value, as white space, or as neither. *)
Inductive pychar : Set :=
| Ch (a : ascii)
| DigitChar (d : Z)
| SpaceChar
| OtherChar.

Definition pystr : Set := list pychar.

Fixpoint chars (s : string) : list ascii :=
  match s with
  | EmptyString => []
  | String a r => a :: chars r
  end.

(** The Python text of a literal below U+0100. *)
Definition text (s : string) : pystr := Ch <$> chars s.

(** The rewriting step: codes below 127 are kept; of the codes from 127 to
    255 only U+0085 and U+00A0 are white space and none is a decimal
    digit. *)
Definition to_ascii (c : pychar) : ascii :=
  match c with
  | Ch a =>
      let n := nat_of_ascii a in
      if (n <? 127)%nat then a
      else if ((n =? 133) || (n =? 160))%nat then " "%char
      else "?"%char
  | DigitChar d => ascii_of_nat (48 + Z.to_nat (d `mod` 10))
  | SpaceChar => " "%char
  | OtherChar => "?"%char
  end.

(** The white space the parser skips at both ends: tab, line feed,
    vertical tab, form feed, carriage return and blank. *)
Definition is_space (a : ascii) : bool :=
  let n := nat_of_ascii a in
  ((9 <=? n) && (n <=? 13) || (n =? 32))%nat.

Fixpoint lstrip (s : list ascii) : list ascii :=
  match s with
  | a :: r => if is_space a then lstrip r else s
  | [] => []
  end.

Definition strip (s : list ascii) : list ascii :=
  rev (lstrip (rev (lstrip s))).

Definition digit_value (a : ascii) : option Z :=
  let n := Z.of_nat (nat_of_ascii a) in
  if (48 <=? n) && (n <=? 57) then Some (n - 48) else None.

(** The default of [sys.get_int_max_str_digits()]: a text with more digits
    is refused. *)
Definition int_max_str_digits : Z := 4300.

(** The digits, which single underscores may separate; [count] is the
    number of digits read so far. *)
Fixpoint digits (acc : Z) (count : Z) (after_digit : bool) (s : list ascii) :
    option Z :=
  match s with
  | [] =>
      if after_digit && (count <=? int_max_str_digits) then Some acc else None
  | a :: r =>
      match digit_value a with
      | Some d => digits (10 * acc + d) (count + 1) true r
      | None =>
          if Ascii.eqb a "_" && after_digit then digits acc count false r
          else None
      end
  end.

(** [int(s)], base 10; [None] stands for [ValueError]. *)
Definition int (s : pystr) : option Z :=
  match strip (to_ascii <$> s) with
  | "-"%char :: r => Z.opp <$> digits 0 0 false r
  | "+"%char :: r => digits 0 0 false r
  | r => digits 0 0 false r
  end.

(** [a % b] on [int]: floored, the sign of the divisor; [None] stands for
    [ZeroDivisionError]. *)
Definition mod_ (a b : Z) : option Z :=
  if decide (b = 0) then None else Some (a `mod` b).

(** [float(n)] for an [int] [n], as the product [n * 0.5] takes it first:
    the nearest number with 53 significant bits, ties to the even one;
    [None] stands for the [OverflowError] of a result of 2^1024 or more.
    A rational carries the float. *)
Definition round_to_double (a : Z) : Z :=
  if a <? 2 ^ 53 then a
  else
    let e := Z.log2 a - 52 in
    let q := a / 2 ^ e in
    let r := a `mod` 2 ^ e in
    let h := 2 ^ (e - 1) in
    (if (h <? r) || ((r =? h) && Z.odd q) then q + 1 else q) * 2 ^ e.

Definition float (n : Z) : option Qc :=
  let m := round_to_double (Z.abs n) in
  if 2 ^ 1024 <=? m then None else Some (Qc_of_Z (Z.sgn n * m)).

(** [n * 0.5]: halving the float is exact. *)
Definition half : Qc := Q2Qc (1 # 2).
Definition times_half (n : Z) : option Qc :=
  (fun f => (f * half)%Qc) <$> float n.

(** *** [random]

    The generator is an arbitrary sequence of raw draws and a cursor into
    it.  [randbelow n] stands for [Random._randbelow]: some value below
    [n], here the raw draw reduced modulo [n]. *)
Record Random : Type := mkRandom {
  entropy : nat -> N;
  cursor : nat
}.

Definition getrand (g : Random) : N * Random :=
  (entropy g (cursor g), mkRandom (entropy g) (Datatypes.S (cursor g))).

Definition randbelow (n : Z) (g : Random) : Z * Random :=
  let '(raw, g') := getrand g in (Z.of_N raw `mod` n, g').

(** [random.randint(a, b)]; [None] stands for the [ValueError] of an
    empty range. *)
Definition randint (a b : Z) (g : Random) : option (Z * Random) :=
  if decide (a <= b)
  then let '(r, g') := randbelow (b - a + 1) g in Some (a + r, g')
  else None.

(** [random.choice(seq)]; [None] stands for the [IndexError] of an empty
    sequence. *)
Definition choice {A : Type} (seq : list A) (g : Random) : option (A * Random) :=
  match seq with
  | [] => None
  | _ :: _ =>
      let '(r, g') := randbelow (Z.of_nat (length seq)) g in
      (fun x => (x, g')) <$> seq !! Z.to_nat r
  end.

(** [random.random()]: a multiple of 2^-53 in [0, 1). *)
Definition random (g : Random) : Qc * Random :=
  let '(r, g') := randbelow (2 ^ 53) g in
  (Qc_of_Z r / Qc_of_Z (2 ^ 53), g')%Qc.

(** [random.uniform(a, b)] is [a + (b - a) * random()]. *)
Definition uniform (a b : Qc) (g : Random) : Qc * Random :=
  let '(u, g') := random g in ((a + (b - a) * u)%Qc, g').

(** *** [datetime] *)
Record datetime : Set := mkDatetime {
  hour : Z;
  minute : Z;
  second : Z
}.

(** [datetime.now()] when the wall clock shows [clock] seconds since a
    local midnight. *)
Definition now (clock : Qc) : datetime :=
  let secs := Qfloor clock in
  {| hour := (secs / 3600) `mod` 24;
     minute := (secs / 60) `mod` 60;
     second := secs `mod` 60 |}.

(** The [%H], [%M], [%S] directives: two digits, zero padded. *)
Definition two_digits (n : Z) : string :=
  if n <? 10 then "0" +:+ str n else str n.

(** [dt.strftime("%H:%M:%S")] *)
Definition strftime_HMS (dt : datetime) : string :=
  two_digits (hour dt) +:+ ":" +:+ two_digits (minute dt) +:+ ":" +:+
  two_digits (second dt).

(** *** [queue.Queue]: an unbounded FIFO. *)
Definition Queue : Type := list string.

Definition put (item : string) (q : Queue) : Queue := q ++ [item].

(** [get_nowait()]; [None] stands for [queue.Empty]. *)
Definition get_nowait (q : Queue) : option (string * Queue) :=
  match q with
  | [] => None
  | item :: rest => Some (item, rest)
  end.

End Py.

Import Py.

(** ** The world outside the program: the random generator and the clock. *)
Record World : Type := mkWorld {
  rng : Random;
  clock : Qc
}.

Definition tick (dt : Qc) (w : World) : World :=
  {| rng := rng w; clock := (clock w + dt)%Qc |}.

(** ** class WeatherDataCollector *)

Definition CITIES : list string :=
  ["New York"; "London"; "Tokyo"; "Sydney"; "Paris";
   "Berlin"; "Mumbai"; "Beijing"; "Dubai"; "Singapore"].

Definition CONDITIONS : list string :=
  ["Sunny"; "Cloudy"; "Rainy"; "Stormy"; "Snowy"; "Windy"].

Record WeatherDataCollector : Type := mkCollector {
  city : string;
  temperature : Z;
  humidity : Z;
  condition : string;
  wind_speed : Z;
  timestamp : string
}.

(** [WeatherDataCollector()] *)
Definition WeatherDataCollector_new : WeatherDataCollector :=
  {| city := ""; temperature := 0; humidity := 0; condition := "";
     wind_speed := 0; timestamp := "" |}.

(** [generate_mock_data(self, city)]: every attribute of [self] is
    overwritten and [self] is returned; the draws advance the generator. *)
Definition generate_mock_data (self : WeatherDataCollector) (c : string)
    (w : World) : option (WeatherDataCollector * World) :=
  '(t, g1) ← randint (-10) 40 (rng w);
  '(h, g2) ← randint 20 100 g1;
  '(cond, g3) ← choice CONDITIONS g2;
  '(ws, g4) ← randint 0 50 g3;
  Some ({| city := c; temperature := t; humidity := h; condition := cond;
           wind_speed := ws;
           timestamp := strftime_HMS (now (clock w)) |},
        {| rng := g4; clock := clock w |}).

(** [to_string(self)]: the three adjacent f-strings. *)
Definition to_string (self : WeatherDataCollector) : string :=
  (city self +:+ ": " +:+ str (temperature self) +:+ "°C, ") +:+
  (condition self +:+ ", Humidity: " +:+ str (humidity self) +:+ "%, ") +:+
  ("Wind: " +:+ str (wind_speed self) +:+ " km/h [" +:+ timestamp self +:+ "]").

(** ** Worker threads

    A [threading.Thread] running [collect_weather(city, delay)] is, at any
    instant, not yet started, inside the initial [time.sleep(delay)] with
    some time left, at the [while self.collecting] test, inside the
    [time.sleep] that ends an iteration with some time left, or finished. *)
Inductive phase : Type :=
| NotStarted
| Delaying (left : Qc)
| AtLoopTest
| Sleeping (left : Qc)
| Exited.

Record Thread : Type := mkThread {
  target_city : string;
  target_delay : Qc;
  daemon : bool;
  at_phase : phase
}.

Definition started (t : Thread) : bool :=
  match at_phase t with NotStarted => false | _ => true end.

Definition set_phase (p : phase) (t : Thread) : Thread :=
  {| target_city := target_city t; target_delay := target_delay t;
     daemon := daemon t; at_phase := p |}.

(** [time.sleep(secs)] refuses a negative [secs] with a [ValueError] and
    one of more than 2^63 nanoseconds, which its 64-bit count does not
    hold, with an [OverflowError] (the system timer may refuse a sleep that
    ends beyond that point too; no delay of this program comes near). *)
Definition sleep_max : Qc := (Qc_of_Z (2 ^ 63) / Qc_of_Z (10 ^ 9))%Qc.

Definition sleep_raises (secs : Qc) : bool :=
  bool_decide (secs < 0)%Qc || bool_decide (sleep_max < secs)%Qc.

(** [thread.start()]: the worker enters [time.sleep(delay)]; an exception
    raised there ends the worker. *)
Definition thread_start (t : Thread) : Thread :=
  set_phase (if sleep_raises (target_delay t) then Exited
             else Delaying (target_delay t)) t.

Definition Qcmin (x y : Qc) : Qc := if decide (x ≤ y)%Qc then x else y.
Definition Qcmax (x y : Qc) : Qc := if decide (x ≤ y)%Qc then y else x.

(** The effect of [dt] time units on a worker: a sleep that has run out
    leaves it at the loop test. *)
Definition elapse (dt : Qc) (p : phase) : phase :=
  match p with
  | Delaying r => if decide (r ≤ dt)%Qc then AtLoopTest else Delaying (r - dt)
  | Sleeping r => if decide (r ≤ dt)%Qc then AtLoopTest else Sleeping (r - dt)
  | _ => p
  end.

(** The [while self.collecting] test taken with the flag down. *)
Definition leave_loop (p : phase) : phase :=
  match p with AtLoopTest => Exited | _ => p end.

(** How long a worker still runs once the flag is down. *)
Definition time_to_exit (p : phase) : Qc :=
  match p with
  | Delaying r | Sleeping r => Qcmax 0 r
  | _ => 0%Qc
  end.

(** ** class WeatherGUI *)

Inductive widget_state : Set := normal | disabled.

(** The callbacks handed to [root.after]. *)
Inductive callback : Set := cb_process_queue.

Record WeatherGUI : Type := mkGUI {
  collecting : bool;
  threads : list Thread;
  data_queue : Queue;
  city_vars : list (string * bool);     (* dict in insertion order *)
  start_btn : widget_state;
  stop_btn : widget_state;
  thread_count : pystr;                 (* text of the Spinbox *)
  data_text : string;                   (* content of the ScrolledText *)
  info_label : string * string;         (* text, fg *)
  after_jobs : list (Z * callback)      (* pending [root.after] timers *)
}.

Definition set_collecting (v : bool) (s : WeatherGUI) : WeatherGUI :=
  mkGUI v (threads s) (data_queue s) (city_vars s) (start_btn s) (stop_btn s)
        (thread_count s) (data_text s) (info_label s) (after_jobs s).
Definition set_threads (v : list Thread) (s : WeatherGUI) : WeatherGUI :=
  mkGUI (collecting s) v (data_queue s) (city_vars s) (start_btn s) (stop_btn s)
        (thread_count s) (data_text s) (info_label s) (after_jobs s).
Definition set_data_queue (v : Queue) (s : WeatherGUI) : WeatherGUI :=
  mkGUI (collecting s) (threads s) v (city_vars s) (start_btn s) (stop_btn s)
        (thread_count s) (data_text s) (info_label s) (after_jobs s).
Definition set_city_vars (v : list (string * bool)) (s : WeatherGUI) : WeatherGUI :=
  mkGUI (collecting s) (threads s) (data_queue s) v (start_btn s) (stop_btn s)
        (thread_count s) (data_text s) (info_label s) (after_jobs s).
Definition set_start_btn (v : widget_state) (s : WeatherGUI) : WeatherGUI :=
  mkGUI (collecting s) (threads s) (data_queue s) (city_vars s) v (stop_btn s)
        (thread_count s) (data_text s) (info_label s) (after_jobs s).
Definition set_stop_btn (v : widget_state) (s : WeatherGUI) : WeatherGUI :=
  mkGUI (collecting s) (threads s) (data_queue s) (city_vars s) (start_btn s) v
        (thread_count s) (data_text s) (info_label s) (after_jobs s).
Definition set_thread_count (v : pystr) (s : WeatherGUI) : WeatherGUI :=
  mkGUI (collecting s) (threads s) (data_queue s) (city_vars s) (start_btn s)
        (stop_btn s) v (data_text s) (info_label s) (after_jobs s).
Definition set_data_text (v : string) (s : WeatherGUI) : WeatherGUI :=
  mkGUI (collecting s) (threads s) (data_queue s) (city_vars s) (start_btn s)
        (stop_btn s) (thread_count s) v (info_label s) (after_jobs s).
Definition set_info_label (v : string * string) (s : WeatherGUI) : WeatherGUI :=
  mkGUI (collecting s) (threads s) (data_queue s) (city_vars s) (start_btn s)
        (stop_btn s) (thread_count s) (data_text s) v (after_jobs s).
Definition set_after_jobs (v : list (Z * callback)) (s : WeatherGUI) : WeatherGUI :=
  mkGUI (collecting s) (threads s) (data_queue s) (city_vars s) (start_btn s)
        (stop_btn s) (thread_count s) (data_text s) (info_label s) v.

(** [self.city_vars[city] = var] *)
Definition dict_set (k : string) (v : bool) (d : list (string * bool)) :
    list (string * bool) :=
  if existsb (fun kv => String.eqb kv.1 k) d
  then (fun kv => if String.eqb kv.1 k then (k, v) else kv) <$> d
  else d ++ [(k, v)].

Definition newline : string := String "010" EmptyString.

(** The [while True] loop of [process_queue]: it is left through the
    [queue.Empty] that [get_nowait] raises, which the bare [except] drops.
    [data_text.see] moves the viewport only. *)
Fixpoint drain (q : Queue) (text : string) : Queue * string :=
  match q with
  | [] => (q, text)                      (* get_nowait raises Empty *)
  | data :: rest =>                      (* get_nowait returns data *)
      drain rest (text +:+ (data +:+ newline))
  end.

(** The same loop while workers keep putting: [arrivals] lists what is put
    between one [get_nowait] and the next.  The loop still ends at the first
    [get_nowait] that finds the queue empty; what is put later waits for the
    next run and is returned as the third component. *)
Fixpoint drain_arriving (arrivals : list (list string)) (q : Queue)
    (text : string) : Queue * string * list (list string) :=
  match q with
  | [] => (q, text, arrivals)
  | data :: rest =>
      match arrivals with
      | [] => (drain rest (text +:+ (data +:+ newline)), [])
      | batch :: later =>
          drain_arriving later (rest ++ batch) (text +:+ (data +:+ newline))
      end
  end.

(** [process_queue(self)] *)
Definition process_queue (s : WeatherGUI) : WeatherGUI :=
  let '(q, text) := drain (data_queue s) (data_text s) in
  let s := set_data_queue q s in
  let s := set_data_text text s in
  set_after_jobs (after_jobs s ++ [(100, cb_process_queue)]) s.

(** [self.thread_count.set(3)]: a [tk.Spinbox] has no [set] (only the
    [ttk] one has), so the attribute look-up raises. *)
Definition Spinbox_set (value : Z) (s : WeatherGUI) : Result WeatherGUI :=
  Raise AttributeError s.

(** [setup_ui(self)]: the packing and layout calls leave no trace in the
    modelled state.  The Spinbox is created showing its lowest value; the
    call of [set] on it raises, so the lines after it (the log, the status
    line and the first [process_queue()]) are not reached. *)
Definition setup_ui (s : WeatherGUI) : Result WeatherGUI :=
  let s := set_city_vars
             (foldl (fun vars c => dict_set c true vars) (city_vars s) CITIES) s in
  let s := set_start_btn normal s in
  let s := set_stop_btn disabled s in
  let s := set_thread_count (text "1") s in
  match Spinbox_set 3 s with
  | Raise e s => Raise e s
  | Ok s =>
      let s := set_data_text "" s in
      let s := set_info_label ("Ready to collect weather data", "blue") s in
      Ok (process_queue s)
  end.

(** [WeatherGUI(root)]: [__init__] sets the four plain attributes and calls
    [setup_ui], which creates the widgets. *)
Definition WeatherGUI_new : Result WeatherGUI :=
  setup_ui {| collecting := false; threads := []; data_queue := [];
              city_vars := [];
              start_btn := normal; stop_btn := normal; thread_count := [];
              data_text := ""; info_label := ("", ""); after_jobs := [] |}.

(** [get_selected_cities(self)] *)
Definition get_selected_cities (s : WeatherGUI) : list string :=
  fst <$> filter (fun kv => kv.2 = true) (city_vars s).

(** The body of the [while] loop of [collect_weather]: a fresh collector
    generates the reading, its rendering is queued, and the worker sleeps
    for the returned time. *)
Definition collect_weather_body (c : string) (s : WeatherGUI) (w : World) :
    option (WeatherGUI * World * Qc) :=
  '(data, w1) ← generate_mock_data WeatherDataCollector_new c w;
  let s1 := set_data_queue (put (to_string data) (data_queue s)) s in
  let '(d, g) := uniform 1%Qc (Qc_of_Z 3) (rng w1) in
  Some (s1, {| rng := g; clock := clock w1 |}, d).

(** One turn of [collect_weather] for a worker standing at the loop test. *)
Definition collect_weather_turn (t : Thread) (s : WeatherGUI) (w : World) :
    option (Thread * WeatherGUI * World) :=
  if collecting s
  then '(s1, w1, d) ← collect_weather_body (target_city t) s w;
       Some (set_phase (Sleeping d) t, s1, w1)
  else Some (set_phase Exited t, s, w).

(** The [for i, city in enumerate(cities)] loop of [start_collection],
    entered at index [i]. *)
Fixpoint spawn (num_threads : Z) (i : Z) (cities : list string)
    (s : WeatherGUI) : Result WeatherGUI :=
  match cities with
  | [] => Ok s
  | c :: rest =>
      match mod_ i num_threads with
      | None => Raise ZeroDivisionError s
      | Some r =>
          match times_half r with
          | None => Raise OverflowError s
          | Some delay =>
              let thread := mkThread c delay true NotStarted in
              (* the list holds the thread object, which start() then
                 changes *)
              let s := set_threads (threads s ++ [thread_start thread]) s in
              spawn num_threads (i + 1) rest s
          end
      end
  end.

(** [start_collection(self)] *)
Definition start_collection (s : WeatherGUI) : Result WeatherGUI :=
  let cities := get_selected_cities s in
  match cities with
  | [] => Ok (set_info_label ("Please select at least one city!", "red") s)
  | _ :: _ =>
      let s := set_collecting true s in
      let s := set_data_text "" s in
      match int (thread_count s) with
      | None => Raise ValueError s
      | Some num_threads =>
          match spawn num_threads 0 cities s with
          | Raise e s => Raise e s
          | Ok s =>
              let s := set_start_btn disabled s in
              let s := set_stop_btn normal s in
              Ok (set_info_label
                    ("Collecting data from " +:+ str (Z.of_nat (length cities))
                     +:+ " cities with " +:+ str num_threads +:+ " threads...",
                     "green") s)
          end
      end
  end.

(** Time passing while the flag is down: sleeps run out and the workers
    that reach the loop test leave. *)
Definition pass_time_stopped (dt : Qc) (s : WeatherGUI) : WeatherGUI :=
  set_threads
    ((fun t => set_phase (leave_loop (elapse dt (at_phase t))) t) <$> threads s) s.

(** [thread.join(timeout)] with the flag down: the caller is held until the
    worker has finished or [timeout] has passed, whichever comes first, and
    the time it was held is returned.  Joining a thread that was never
    started is a [RuntimeError]. *)
Definition join (timeout : Qc) (t : Thread) : option Qc :=
  match at_phase t with
  | NotStarted => None
  | p => Some (Qcmin timeout (time_to_exit p))
  end.

(** The [for thread in self.threads] loop of [stop_collection], over the
    positions of the list.  The time the caller is held by each join passes
    for every worker and is added to the clock. *)
Fixpoint join_each (positions : list nat) (s : WeatherGUI) (w : World) :
    Result (WeatherGUI * World) :=
  match positions with
  | [] => Ok (s, w)
  | i :: rest =>
      match threads s !! i with
      | None => Ok (s, w)
      | Some thread =>
          match join 1%Qc thread with
          | None => Raise RuntimeError (s, w)
          | Some held => join_each rest (pass_time_stopped held s) (tick held w)
          end
      end
  end.

(** [stop_collection(self)] *)
Definition stop_collection (s : WeatherGUI) (w : World) :
    Result (WeatherGUI * World) :=
  let s := set_collecting false s in
  match join_each (seq 0 (length (threads s))) s w with
  | Raise e sw => Raise e sw
  | Ok (s, w) =>
      let s := set_threads [] s in
      let s := set_start_btn normal s in
      let s := set_stop_btn disabled s in
      Ok (set_info_label ("Collection stopped", "red") s, w)
  end.

(** [on_closing(self)], up to [root.destroy()], which ends the program. *)
Definition on_closing (s : WeatherGUI) (w : World) : Result (WeatherGUI * World) :=
  if collecting s then stop_collection s w else Ok (s, w).

(** ** The running program

    What can happen to a [WeatherGUI] whose widgets exist while
    [root.mainloop()] runs: the user acts on a widget, a timer fires, time
    passes, a worker thread takes a turn.  (As written the constructor
    raises in [setup_ui], so the events are taken on any object rather than
    on the constructor's.)  Tk invokes the [command] of a button only when
    the button is not disabled, and it reports an exception raised by a
    callback and carries on with the object as the callback left it. *)
Inductive event : Type :=
| ClickStart
| ClickStop
| ToggleCity (c : string)
| TypeThreadCount (text : pystr)
| Timer
| Elapse (dt : Qc)
| WorkerTurn (i : nat)
| AbandonedWorkerTurn (c : string).

Definition toggle (c : string) (vars : list (string * bool)) : list (string * bool) :=
  (fun kv => if String.eqb kv.1 c then (kv.1, negb kv.2) else kv) <$> vars.

Definition lift_gui (w : World) (r : Result WeatherGUI) : Result (WeatherGUI * World) :=
  match r with
  | Ok s => Ok (s, w)
  | Raise e s => Raise e (s, w)
  end.

Definition dispatch (ev : event) (sw : WeatherGUI * World) :
    Result (WeatherGUI * World) :=
  let '(s, w) := sw in
  match ev with
  | ClickStart =>
      match start_btn s with
      | normal => lift_gui w (start_collection s)
      | disabled => Ok (s, w)
      end
  | ClickStop =>
      match stop_btn s with
      | normal => stop_collection s w
      | disabled => Ok (s, w)
      end
  | ToggleCity c => Ok (set_city_vars (toggle c (city_vars s)) s, w)
  | TypeThreadCount text => Ok (set_thread_count text s, w)
  | Timer =>
      match after_jobs s with
      | [] => Ok (s, w)
      | (_, cb_process_queue) :: rest =>
          Ok (process_queue (set_after_jobs rest s), w)
      end
  | Elapse dt =>
      if decide (0 ≤ dt)%Qc
      then Ok (set_threads
                 ((fun t => set_phase (elapse dt (at_phase t)) t) <$> threads s) s,
               tick dt w)
      else Ok (s, w)
  | WorkerTurn i =>
      match threads s !! i with
      | Some t =>
          match at_phase t with
          | AtLoopTest =>
              match collect_weather_turn t s w with
              | Some (t', s', w') =>
                  Ok (set_threads (<[i := t']> (threads s')) s', w')
              | None => Ok (set_threads (<[i := set_phase Exited t]> (threads s)) s, w)
              end
          | _ => Ok (s, w)
          end
      | None => Ok (s, w)
      end
  | AbandonedWorkerTurn c =>
      if collecting s
      then match collect_weather_body c s w with
           | Some (s', w', _) => Ok (s', w')
           | None => Ok (s, w)
           end
      else Ok (s, w)
  end.

(** The object and the world after a sequence of events. *)
Definition run (evs : list event) (sw : WeatherGUI * World) : WeatherGUI * World :=
  foldl (fun sw ev => state_of (dispatch ev sw)) sw evs.

(** No callback along the sequence raised. *)
Fixpoint all_completed (evs : list event) (sw : WeatherGUI * World) : bool :=
  match evs with
  | [] => true
  | ev :: rest =>
      completed (dispatch ev sw) && all_completed rest (state_of (dispatch ev sw))
  end.

(** The consistency the two buttons are meant to keep with the flag. *)
Definition buttons_follow_flag (s : WeatherGUI) : Prop :=
  (start_btn s = disabled ↔ collecting s = true) ∧
  (stop_btn s = disabled ↔ collecting s = false).

Definition buttons_exclusive (s : WeatherGUI) : Prop :=
  (start_btn s = normal ∧ stop_btn s = disabled) ∨
  (start_btn s = disabled ∧ stop_btn s = normal).

(** The lines [process_queue] writes for a list of queued items. *)
Definition rendered (items : list string) : string :=
  foldr (fun data acc => (data +:+ newline) +:+ acc) "" items.

(** The line format as the interface description words it, and the
    substitution of values for its [<name>] place holders. *)
Definition log_line_template : string :=
  "<city>: <temp>°C, <condition>, Humidity: <humidity>%, Wind: <wind> km/h [<HH:MM:SS>]".

Fixpoint substitute (values : list (string * string)) (name : option string)
    (template : string) : string :=
  match template with
  | EmptyString =>
      match name with None => "" | Some n => "<" +:+ n end
  | String a rest =>
      match name with
      | None =>
          if Ascii.eqb a "<" then substitute values (Some "") rest
          else String a (substitute values None rest)
      | Some n =>
          if Ascii.eqb a ">"
          then match list_find (fun kv => kv.1 = n) values with
               | Some (_, (_, v)) => v
               | None => "<" +:+ n +:+ ">"
               end +:+ substitute values None rest
          else substitute values (Some (n +:+ String a "")) rest
      end
  end.

Definition log_line_values (r : WeatherDataCollector) : list (string * string) :=
  [("city", city r); ("temp", str (temperature r));
   ("condition", condition r); ("humidity", str (humidity r));
   ("wind", str (wind_speed r)); ("HH:MM:SS", timestamp r)].

Definition digit_char (d : Z) : ascii := ascii_of_nat (Z.to_nat (48 + d)).

(** The state every event keeps once the object has it: one button is
    enabled and the other is not; while the flag is down Start is enabled
    and no worker is listed; the listed workers are started daemon threads
    for cities of [CITIES]; the check boxes are those of [CITIES]. *)
Definition well_formed (s : WeatherGUI) : Prop :=
  buttons_exclusive s ∧
  (collecting s = false → start_btn s = normal ∧ threads s = []) ∧
  Forall (fun t => started t = true ∧ daemon t = true ∧ target_city t ∈ CITIES)
         (threads s) ∧
  fst <$> city_vars s = CITIES.

#[global] Instance widget_state_eq_dec : EqDecision widget_state.
Proof. solve_decision. Defined.

#[global] Instance well_formed_dec (s : WeatherGUI) : Decision (well_formed s).
Proof. unfold well_formed, buttons_exclusive. apply _. Defined.

(** The worker [start_collection] creates and starts for the city at
    position [k] of the selection when the count is [n] and the product
    with [0.5] is exact. *)
Definition worker_for (n : Z) (k : nat) (c : string) : Thread :=
  thread_start
    (mkThread c (Qc_of_Z (Z.of_nat k `mod` n) * half)%Qc true NotStarted).

(** Counts and selection sizes for which every [i % n] is below 2^53 in
    magnitude, so that its product with [0.5] is exact. *)
Definition exact_delays (n : Z) (k : nat) : Prop :=
  n ≠ 0 ∧ (- 2 ^ 53 ≤ n ≤ 2 ^ 53 ∨ (0 < n ∧ Z.of_nat k ≤ 2 ^ 53)).

(** A world and a few objects to evaluate the program on. *)
Definition sample_world : World :=
  mkWorld (mkRandom (fun n => N.of_nat (7 * n + 3)) 0) (Q2Qc (3723 # 1)).

(** An object with every widget in place, as [setup_ui] would leave it if
    it ran to its end without line 117: all cities ticked, nothing running,
    the Spinbox showing its lowest value, the status line set and one
    [process_queue] timer pending. *)
Definition sample_gui : WeatherGUI :=
  {| collecting := false; threads := []; data_queue := [];
     city_vars := (fun c => (c, true)) <$> CITIES;
     start_btn := normal; stop_btn := disabled;
     thread_count := text "1";
     data_text := "";
     info_label := ("Ready to collect weather data", "blue");
     after_jobs := [(100, cb_process_queue)] |}.

Definition nothing_selected : WeatherGUI :=
  (run (ToggleCity <$> CITIES) (sample_gui, sample_world)).1.

(** Two cities and two workers: started, both workers given a turn, the
    queue drained once. *)
Definition two_cities : WeatherGUI :=
  (run ((ToggleCity <$> ["New York"; "London"; "Sydney"; "Berlin"; "Mumbai";
                         "Beijing"; "Dubai"; "Singapore"]) ++
        [TypeThreadCount (text "2")])
       (sample_gui, sample_world)).1.

Definition two_cities_collecting : WeatherGUI * World :=
  run [ClickStart; Elapse 1%Qc; WorkerTurn 0; WorkerTurn 1; Timer]
      (two_cities, sample_world).

Definition two_cities_stopped : WeatherGUI * World :=
  run [ClickStop] two_cities_collecting.

(** Three workers in the middle of their sleeps, with 1/2, 1 and 5/2 time
    units to go. *)
Definition sleepers : WeatherGUI :=
  set_threads
    [mkThread "Tokyo" 0%Qc true (Sleeping half);
     mkThread "Paris" half true (Sleeping 1%Qc);
     mkThread "London" 0%Qc true (Sleeping (Qc_of_Z 5 * half))]
    two_cities_collecting.1.

(** The text of a count below -1.8e308: [-1] followed by 309 zeros. *)
Definition huge_negative : pystr :=
  text "-1" ++ replicate 309 (Ch "0").



(** Ten cities and a count of 3. *)
Definition three_workers : WeatherGUI :=
  set_thread_count (text "3") sample_gui.

(** A start aborted by a count of 0, after which every city is unticked. *)
Definition zero_count : WeatherGUI :=
  set_thread_count (text "0") sample_gui.

Definition zero_aborted : WeatherGUI :=
  (run (ClickStart :: (ToggleCity <$> CITIES)) (zero_count, sample_world)).1.

(** The object a [start_collection] that goes ahead with the count [n]
    returns when the delays are exact. *)
Definition after_start (n : Z) (s : WeatherGUI) : WeatherGUI :=
  {| collecting := true;
     threads := threads s ++ imap (worker_for n) (get_selected_cities s);
     data_queue := data_queue s;
     city_vars := city_vars s;
     start_btn := disabled;
     stop_btn := normal;
     thread_count := thread_count s;
     data_text := "";
     info_label :=
       ("Collecting data from " +:+
        str (Z.of_nat (length (get_selected_cities s))) +:+
        " cities with " +:+ str n +:+ " threads...", "green");
     after_jobs := after_jobs s |}.

(** The object [stop_collection] returns. *)
Definition after_stop (s : WeatherGUI) : WeatherGUI :=
  {| collecting := false; threads := [];
     data_queue := data_queue s; city_vars := city_vars s;
     start_btn := normal; stop_btn := disabled;
     thread_count := thread_count s; data_text := data_text s;
     info_label := ("Collection stopped", "red");
     after_jobs := after_jobs s |}.




(** How long [stop_collection] is held by each of its joins, from the
    times the listed workers still need, in the order of the list:
    [elapsed] has passed for all of them when a worker's turn comes, and
    the join then lasts until the worker has finished or for one unit. *)
Fixpoint join_waits (elapsed : Qc) (needs : list Qc) : list Qc :=
  match needs with
  | [] => []
  | r :: rest =>
      let held := Qcmin 1%Qc (Qcmax 0%Qc (r - elapsed)%Qc) in
      held :: join_waits (elapsed + held)%Qc rest
  end.

Definition Qcsum (l : list Qc) : Qc := foldr Qcplus 0%Qc l.

(** * Properties *)

(** ** The runtime model *)

Section Runtime.

Lemma randbelow_range (n : Z) (g : Random) :
  0 < n → 0 ≤ (randbelow n g).1 < n.
Proof.
  intros Hn. unfold randbelow, getrand. simpl.
  apply Z.mod_pos_bound. exact Hn.
Qed.

Lemma randint_range (a b : Z) (g : Random) :
  a ≤ b → ∃ v g', randint a b g = Some (v, g') ∧ a ≤ v ≤ b.
Proof.
  intros Hab. unfold randint.
  destruct (decide (a ≤ b)) as [_|]; [|contradiction].
  pose proof (randbelow_range (b - a + 1) g ltac:(lia)) as Hr.
  destruct (randbelow (b - a + 1) g) as [r g']. simpl in Hr.
  exists (a + r), g'. split; [reflexivity|lia].
Qed.

(** The model of [randint] leaves no value of the range out. *)
Lemma randint_any (a b v : Z) :
  a ≤ v ≤ b → ∃ g g', randint a b g = Some (v, g').
Proof.
  intros Hv. exists (mkRandom (fun _ => Z.to_N (v - a)) 0%nat).
  unfold randint. destruct (decide (a ≤ b)) as [_|]; [|lia].
  unfold randbelow, getrand. simpl. eexists. f_equal. f_equal.
  rewrite Z2N.id by lia. rewrite Z.mod_small by lia. lia.
Qed.

Lemma choice_elem {A : Type} (seq : list A) (g : Random) :
  seq ≠ [] → ∃ x g', choice seq g = Some (x, g') ∧ x ∈ seq.
Proof.
  intros Hne. destruct seq as [|a seq']; [contradiction|].
  unfold choice. set (l := a :: seq').
  pose proof (randbelow_range (Z.of_nat (length l)) g) as Hr.
  destruct (randbelow (Z.of_nat (length l)) g) as [r g']. simpl in Hr.
  assert (Hlen : 0 < Z.of_nat (length l)) by (subst l; simpl; lia).
  specialize (Hr Hlen).
  destruct (lookup_lt_is_Some_2 l (Z.to_nat r)) as [x Hx];
    [subst l; simpl in *; lia|].
  exists x, g'. rewrite Hx. split; [reflexivity|].
  eapply list_elem_of_lookup_2. exact Hx.
Qed.

Lemma string_app_assoc (a b c : string) :
  a +:+ (b +:+ c) = (a +:+ b) +:+ c.
Proof.
  induction a as [|x a IH]; [reflexivity|].
  change (String x (a +:+ (b +:+ c)) = String x ((a +:+ b) +:+ c)).
  now rewrite IH.
Qed.

Lemma string_app_empty_r (a : string) : a +:+ "" = a.
Proof.
  induction a as [|x a IH]; [reflexivity|].
  change (String x (a +:+ "") = String x a). now rewrite IH.
Qed.

Lemma drain_get_nowait (q : Queue) (text : string) :
  drain q text =
  match get_nowait q with
  | None => (q, text)
  | Some (data, rest) => drain rest (text +:+ (data +:+ newline))
  end.
Proof. destruct q; reflexivity. Qed.

End Runtime.

(** ** The mock reading *)

Section Reading.

Lemma two_digits_chars (n : Z) :
  0 ≤ n < 100 →
  two_digits n =
  String (digit_char (n / 10)) (String (digit_char (n `mod` 10)) "").
Proof.
  intros Hn.
  assert (Hall : forallb
            (fun k : nat =>
               String.eqb (two_digits (Z.of_nat k))
                 (String (digit_char (Z.of_nat k / 10))
                    (String (digit_char (Z.of_nat k `mod` 10)) "")))
            (seq 0 100) = true) by (vm_compute; reflexivity).
  rewrite forallb_forall in Hall.
  specialize (Hall (Z.to_nat n)).
  rewrite Z2Nat.id in Hall by lia.
  apply String.eqb_eq, Hall, in_seq. lia.
Qed.

Lemma now_fields (clk : Qc) :
  let dt := now clk in
  0 ≤ hour dt < 24 ∧ 0 ≤ minute dt < 60 ∧ 0 ≤ second dt < 60 ∧
  3600 * hour dt + 60 * minute dt + second dt = Qfloor clk `mod` 86400.
Proof.
  simpl. generalize (Qfloor clk). intros secs.
  repeat split; try (apply Z.mod_pos_bound; lia).
  Z.div_mod_to_equations. lia.
Qed.

Lemma to_string_template (r : WeatherDataCollector) :
  to_string r = substitute (log_line_values r) None log_line_template.
Proof.
  destruct r as [c t h cond ws ts]. unfold to_string.
  repeat rewrite <- string_app_assoc. reflexivity.
Qed.

Example to_string_tokyo :
  to_string {| city := "Tokyo"; temperature := -7; humidity := 30;
               condition := "Windy"; wind_speed := 24;
               timestamp := "01:02:03" |}
  = "Tokyo: -7°C, Windy, Humidity: 30%, Wind: 24 km/h [01:02:03]".
Proof. reflexivity. Qed.

Lemma generate_mock_data_inv (self : WeatherDataCollector) (c : string)
    (w : World) (r : WeatherDataCollector) (w' : World) :
  generate_mock_data self c w = Some (r, w') →
  ∃ t g1 h g2 cond g3 ws g4,
    randint (-10) 40 (rng w) = Some (t, g1) ∧
    randint 20 100 g1 = Some (h, g2) ∧
    choice CONDITIONS g2 = Some (cond, g3) ∧
    randint 0 50 g3 = Some (ws, g4) ∧
    r = {| city := c; temperature := t; humidity := h; condition := cond;
           wind_speed := ws; timestamp := strftime_HMS (now (clock w)) |} ∧
    w' = {| rng := g4; clock := clock w |}.
Proof.
  unfold generate_mock_data. intros E.
  destruct (randint (-10) 40 (rng w)) as [[t g1]|] eqn:E1; [|discriminate].
  cbn [mbind option_bind] in E.
  destruct (randint 20 100 g1) as [[h g2]|] eqn:E2; [|discriminate].
  cbn [mbind option_bind] in E.
  destruct (choice CONDITIONS g2) as [[cond g3]|] eqn:E3; [|discriminate].
  cbn [mbind option_bind] in E.
  destruct (randint 0 50 g3) as [[ws g4]|] eqn:E4; [|discriminate].
  cbn [mbind option_bind] in E. injection E as <- <-.
  exists t, g1, h, g2, cond, g3, ws, g4. repeat split; assumption.
Qed.

(** The call always produces a reading, with every value inside the range
    it is drawn from. *)
Lemma generate_mock_data_reading (self : WeatherDataCollector) (c : string)
    (w : World) :
  ∃ r w', generate_mock_data self c w = Some (r, w') ∧
    city r = c ∧
    -10 ≤ temperature r ≤ 40 ∧
    20 ≤ humidity r ≤ 100 ∧
    0 ≤ wind_speed r ≤ 50 ∧
    condition r ∈ CONDITIONS.
Proof.
  unfold generate_mock_data.
  destruct (randint_range (-10) 40 (rng w)) as (t & g1 & E1 & Ht); [lia|].
  destruct (randint_range 20 100 g1) as (h & g2 & E2 & Hh); [lia|].
  destruct (choice_elem CONDITIONS g2) as (cond & g3 & E3 & Hc); [discriminate|].
  destruct (randint_range 0 50 g3) as (ws & g4 & E4 & Hws); [lia|].
  rewrite E1; cbn [mbind option_bind]. rewrite E2; cbn [mbind option_bind].
  rewrite E3; cbn [mbind option_bind]. rewrite E4; cbn [mbind option_bind].
  eexists _, _. split; [reflexivity|]. cbn [city temperature humidity
    wind_speed condition]. auto.
Qed.

End Reading.

(** C2: every reading that [generate_mock_data] produces, for any city, any
    state of the generator and any time, carries the city it was asked for,
    an integer temperature in [-10, 40], an integer humidity in [20, 100],
    an integer wind speed in [0, 50] and one of the six conditions; and the
    call always produces a reading. *)
Theorem generate_mock_data_ranges (self : WeatherDataCollector) (c : string)
    (w : World) :
  ∃ r w', generate_mock_data self c w = Some (r, w') ∧
    city r = c ∧
    -10 ≤ temperature r ≤ 40 ∧
    20 ≤ humidity r ≤ 100 ∧
    0 ≤ wind_speed r ≤ 50 ∧
    condition r ∈ CONDITIONS.
Proof. apply generate_mock_data_reading. Qed.

(** C6: the line rendered for a reading is the interface's template
    [<city>: <temp>°C, <condition>, Humidity: <humidity>%, Wind: <wind> km/h [<HH:MM:SS>]]
    with the reading's values put in, and the time stamp of a generated
    reading is the hour, minute and second of the wall clock at the call,
    two digits each, separated by colons. *)
Theorem to_string_log_line (self : WeatherDataCollector) (c : string)
    (w : World) :
  ∃ r w' h m sec,
    generate_mock_data self c w = Some (r, w') ∧
    to_string r = substitute (log_line_values r) None log_line_template ∧
    to_string r =
      c +:+ ": " +:+ str (temperature r) +:+ "°C, " +:+ condition r +:+
      ", Humidity: " +:+ str (humidity r) +:+ "%, Wind: " +:+
      str (wind_speed r) +:+ " km/h [" +:+ timestamp r +:+ "]" ∧
    0 ≤ h < 24 ∧ 0 ≤ m < 60 ∧ 0 ≤ sec < 60 ∧
    3600 * h + 60 * m + sec = Qfloor (clock w) `mod` 86400 ∧
    timestamp r =
      String (digit_char (h / 10)) (String (digit_char (h `mod` 10))
        (String ":"
          (String (digit_char (m / 10)) (String (digit_char (m `mod` 10))
            (String ":"
              (String (digit_char (sec / 10))
                 (String (digit_char (sec `mod` 10)) ""))))))).
Proof.
  destruct (generate_mock_data_reading self c w) as (r & w' & E & Hc & _).
  pose proof (now_fields (clock w)) as (Hh & Hm & Hs & Hsum).
  exists r, w', (hour (now (clock w))), (minute (now (clock w))),
    (second (now (clock w))).
  split; [exact E|]. split; [apply to_string_template|].
  split.
  { rewrite <- Hc. unfold to_string.
    repeat rewrite <- string_app_assoc. reflexivity. }
  do 4 (split; [assumption|]).
  assert (Hts : timestamp r = strftime_HMS (now (clock w))).
  { apply generate_mock_data_inv in E as (?&?&?&?&?&?&?&?&_&_&_&_&->&_).
    reflexivity. }
  rewrite Hts. unfold strftime_HMS.
  rewrite !two_digits_chars by lia. reflexivity.
Qed.

(** ** The display: [process_queue] *)

Section Display.

Lemma drain_rendered (q : Queue) (text : string) :
  drain q text = ([], text +:+ rendered q).
Proof.
  revert text. induction q as [|data rest IH]; intros text.
  - simpl. now rewrite string_app_empty_r.
  - simpl. rewrite IH.
    now rewrite (string_app_assoc text (data +:+ newline)).
Qed.

Lemma rendered_app (l k : list string) :
  rendered (l ++ k) = rendered l +:+ rendered k.
Proof.
  induction l as [|data l IH]; [reflexivity|].
  simpl. rewrite IH. now rewrite string_app_assoc.
Qed.

Lemma put_all (q : Queue) (items : list string) :
  foldl (fun q item => put item q) q items = q ++ items.
Proof.
  revert q. induction items as [|x items IH]; intros q; simpl.
  - now rewrite app_nil_r.
  - rewrite IH. unfold put. now rewrite <- app_assoc.
Qed.

(** Under concurrent puts the loop writes, in queue order, what was queued
    at its start followed by the batches that arrived before the queue ran
    empty, and leaves the later batches alone. *)
Lemma drain_arriving_fifo (arrivals : list (list string)) (q : Queue)
    (text : string) :
  ∃ k : nat,
    drain_arriving arrivals q text =
    ([], text +:+ rendered (q ++ concat (take k arrivals)), drop k arrivals).
Proof.
  revert q text. induction arrivals as [|batch later IH]; intros q text.
  - exists 0%nat. destruct q as [|data rest]; cbn [drain_arriving].
    + cbn. now rewrite string_app_empty_r.
    + rewrite drain_rendered. cbn [take concat drop]. rewrite app_nil_r.
      cbn [rendered foldr].
      now rewrite (string_app_assoc text (data +:+ newline)).
  - destruct q as [|data rest]; cbn [drain_arriving].
    + exists 0%nat. cbn. now rewrite string_app_empty_r.
    + destruct (IH (rest ++ batch) (text +:+ (data +:+ newline))) as [k ->].
      exists (Datatypes.S k). cbn [take concat drop].
      rewrite <- (string_app_assoc text (data +:+ newline)).
      rewrite <- app_assoc. reflexivity.
Qed.

Lemma process_queue_fields (s : WeatherGUI) :
  process_queue s =
  {| collecting := collecting s; threads := threads s; data_queue := [];
     city_vars := city_vars s; start_btn := start_btn s;
     stop_btn := stop_btn s; thread_count := thread_count s;
     data_text := data_text s +:+ rendered (data_queue s);
     info_label := info_label s;
     after_jobs := after_jobs s ++ [(100, cb_process_queue)] |}.
Proof. unfold process_queue. rewrite drain_rendered. reflexivity. Qed.

Example rendered_two :
  rendered ["a"; "b"] = String "a" (String "010" (String "b" (String "010" ""))).
Proof. reflexivity. Qed.

(** A worker hands over the rendering of the reading it generated, at the
    tail of the queue, and touches nothing else of the object. *)
Lemma collect_weather_body_puts (c : string) (s s1 : WeatherGUI)
    (w w1 : World) (d : Qc) :
  collect_weather_body c s w = Some (s1, w1, d) →
  ∃ r w', generate_mock_data WeatherDataCollector_new c w = Some (r, w') ∧
    s1 = set_data_queue (data_queue s ++ [to_string r]) s.
Proof.
  unfold collect_weather_body. intros E.
  destruct (generate_mock_data _ c w) as [[r w']|]; [|discriminate].
  cbn [mbind option_bind] in E.
  destruct (uniform _ _ (rng w')) as [d' g]. injection E as <- _ _.
  exists r, w'. split; reflexivity.
Qed.

Lemma collect_weather_body_total (c : string) (s : WeatherGUI) (w : World) :
  ∃ s1 w1 d, collect_weather_body c s w = Some (s1, w1, d).
Proof.
  unfold collect_weather_body.
  destruct (generate_mock_data_reading WeatherDataCollector_new c w)
    as (r & w' & -> & _).
  cbn [mbind option_bind]. destruct (uniform _ _ (rng w')) as [d g].
  eauto.
Qed.

End Display.

(** C7: with nothing queued the drain step leaves the log as it is, however
    often it runs, and changes nothing of the object but the timer it sets
    for its next run; and for any queue it takes exactly the items that are
    there, through [get_nowait], and sets that timer. *)
Theorem process_queue_empty (s : WeatherGUI) :
  data_queue s = [] →
  data_text (process_queue s) = data_text s ∧
  data_text (process_queue (process_queue s)) = data_text s ∧
  process_queue s =
    set_after_jobs (after_jobs s ++ [(100, cb_process_queue)]) s ∧
  (∀ s0 : WeatherGUI,
     data_queue (process_queue s0) = [] ∧
     data_text (process_queue s0) = data_text s0 +:+ rendered (data_queue s0) ∧
     after_jobs (process_queue s0) = after_jobs s0 ++ [(100, cb_process_queue)]).
Proof.
  intros Hq. rewrite !process_queue_fields. cbn. rewrite Hq. cbn.
  rewrite !string_app_empty_r. repeat split.
  - destruct s; cbn in *. now subst.
  - now rewrite process_queue_fields.
  - now rewrite process_queue_fields.
  - now rewrite process_queue_fields.
Qed.

Lemma process_queue_empty_witness :
  data_text two_cities_collecting.1 ≠ "" ∧
  data_queue two_cities_collecting.1 = [] ∧
  data_text (process_queue two_cities_collecting.1)
    = data_text two_cities_collecting.1 ∧
  data_text (process_queue (process_queue two_cities_collecting.1))
    = data_text two_cities_collecting.1 ∧
  process_queue two_cities_collecting.1 =
    set_after_jobs
      (after_jobs two_cities_collecting.1 ++ [(100, cb_process_queue)])
      two_cities_collecting.1 ∧
  (∀ s0 : WeatherGUI,
     data_queue (process_queue s0) = [] ∧
     data_text (process_queue s0) = data_text s0 +:+ rendered (data_queue s0) ∧
     after_jobs (process_queue s0) = after_jobs s0 ++ [(100, cb_process_queue)]).
Proof.
  split; [vm_compute; discriminate|].
  split; [vm_compute; reflexivity|].
  apply (process_queue_empty two_cities_collecting.1).
  vm_compute; reflexivity.
Defined.

(** C10: one drain step appends the queued items to the log in the order
    they were queued, each followed by a newline, after the content the log
    already had, and leaves the queue empty; items put one after the other
    come out in that order. *)
Theorem process_queue_fifo (s : WeatherGUI) (items : list string) :
  let s1 := set_data_queue
              (foldl (fun q item => put item q) (data_queue s) items) s in
  data_text (process_queue s1) =
    data_text s +:+ rendered (data_queue s) +:+ rendered items ∧
  data_queue (process_queue s1) = [] ∧
  rendered (data_queue s ++ items) =
    foldr (fun data acc => data +:+ newline +:+ acc) "" (data_queue s ++ items).
Proof.
  cbn zeta. rewrite process_queue_fields. cbn.
  rewrite put_all, rendered_app. repeat split.
  induction (data_queue s ++ items) as [|x l IH]; [reflexivity|].
  simpl. rewrite <- IH. now rewrite string_app_assoc.
Qed.

(** ** The controller: [start_collection] *)

Section Start.

Lemma float_exact (r : Z) :
  - 2 ^ 53 < r < 2 ^ 53 → float r = Some (Qc_of_Z r).
Proof.
  intros Hr. unfold float, round_to_double.
  assert (Ha : Z.abs r < 2 ^ 53) by (apply Z.abs_lt; exact Hr).
  destruct (Z.ltb_spec (Z.abs r) (2 ^ 53)) as [_|Hge]; [|lia].
  assert (Hp : 2 ^ 53 ≤ 2 ^ 1024) by (apply Z.pow_le_mono_r; lia).
  destruct (Z.leb_spec (2 ^ 1024) (Z.abs r)) as [Hbig|_]; [lia|].
  now rewrite Z.mul_comm, Z.abs_sgn.
Qed.

Lemma times_half_exact (r : Z) :
  - 2 ^ 53 < r < 2 ^ 53 → times_half r = Some (Qc_of_Z r * half)%Qc.
Proof. intros Hr. unfold times_half. now rewrite float_exact. Qed.

Lemma exact_delays_bound (n : Z) (k i : nat) :
  exact_delays n k → (i < k)%nat →
  - 2 ^ 53 < Z.of_nat i `mod` n < 2 ^ 53.
Proof.
  intros [Hn Hcase] Hi. assert (0 < 2 ^ 53) by lia.
  destruct Hcase as [Hsmall|[Hpos Hk]].
  - destruct (Z.mod_bound_or (Z.of_nat i) n Hn); lia.
  - pose proof (Z.mod_bound_pos_le (Z.of_nat i) n ltac:(lia) Hpos). lia.
Qed.

Lemma set_threads_twice (a b : list Thread) (s : WeatherGUI) :
  set_threads a (set_threads b s) = set_threads a s.
Proof. reflexivity. Qed.

Lemma spawn_from (n i : Z) (cities : list string) (s : WeatherGUI) :
  n ≠ 0 →
  (∀ k : nat, (k < length cities)%nat →
     - 2 ^ 53 < (i + Z.of_nat k) `mod` n < 2 ^ 53) →
  spawn n i cities s =
  Ok (set_threads
        (threads s ++
         imap (fun k c =>
                 thread_start
                   (mkThread c (Qc_of_Z ((i + Z.of_nat k) `mod` n) * half)%Qc
                             true NotStarted)) cities) s).
Proof.
  intros Hn. revert i s.
  induction cities as [|c rest IH]; intros i s Hb.
  - simpl. rewrite app_nil_r. now destruct s.
  - cbn [spawn]. unfold mod_. destruct (decide (n = 0)) as [|_]; [lia|].
    rewrite times_half_exact
      by (specialize (Hb 0%nat ltac:(cbn; lia)); now rewrite Z.add_0_r in Hb).
    rewrite IH, set_threads_twice.
    + f_equal. f_equal.
      cbn [threads set_threads]. rewrite <- app_assoc. f_equal.
      rewrite imap_cons. cbn [app]. f_equal.
      * now rewrite Z.add_0_r.
      * apply imap_ext. intros k x _. cbn. do 5 f_equal. lia.
    + intros k Hk. specialize (Hb (Datatypes.S k) ltac:(cbn; lia)).
      now replace (i + 1 + Z.of_nat k) with (i + Z.of_nat (Datatypes.S k)) by lia.
Qed.

Lemma spawn_zero (i : Z) (c : string) (rest : list string) (s : WeatherGUI) :
  spawn 0 i (c :: rest) s = Raise ZeroDivisionError s.
Proof. reflexivity. Qed.

Lemma spawn_ok (n : Z) (cities : list string) (s : WeatherGUI) :
  exact_delays n (length cities) →
  spawn n 0 cities s =
  Ok (set_threads (threads s ++ imap (worker_for n) cities) s).
Proof.
  intros He. rewrite spawn_from.
  - reflexivity.
  - apply He.
  - intros k Hk. rewrite Z.add_0_l. now apply (exact_delays_bound n (length cities)).
Qed.

(** Whatever the count and however the loop ends, it only appends started
    daemon workers for cities of the selection to the worker list, and one
    per city, in order, when it runs to its end. *)
Lemma spawn_shape (n i : Z) (cities : list string) (s : WeatherGUI) :
  ∃ new,
    state_of (spawn n i cities s) = set_threads (threads s ++ new) s ∧
    Forall (fun t => started t = true ∧ daemon t = true ∧
                     target_city t ∈ cities) new ∧
    (completed (spawn n i cities s) = true → target_city <$> new = cities).
Proof.
  revert i s. induction cities as [|c rest IH]; intros i s.
  - exists []. cbn. rewrite app_nil_r. split; [now destruct s|]. now split.
  - cbn [spawn]. destruct (mod_ i n) as [r|].
    2:{ exists []. cbn. rewrite app_nil_r. split; [now destruct s|].
        split; [constructor|discriminate]. }
    destruct (times_half r) as [delay|].
    2:{ exists []. cbn. rewrite app_nil_r. split; [now destruct s|].
        split; [constructor|discriminate]. }
    destruct (IH (i + 1)
                (set_threads
                   (threads s ++ [thread_start (mkThread c delay true NotStarted)])
                   s))
      as (new & E & Hall & Hdone).
    exists (thread_start (mkThread c delay true NotStarted) :: new).
    split; [|split].
    + rewrite E. cbn [threads set_threads]. rewrite set_threads_twice.
      now rewrite <- app_assoc.
    + constructor.
      * split; [|split; [reflexivity|left]].
        unfold thread_start, started. cbn. now destruct (sleep_raises _).
      * eapply Forall_impl; [exact Hall|]. intros t (H1 & H2 & H3).
        split; [exact H1|]. split; [exact H2|]. now right.
    + intros Hc. cbn [fmap list_fmap]. f_equal. now apply Hdone.
Qed.

(** The three ways [start_collection] ends with some city selected. *)
Lemma start_collection_completes (s : WeatherGUI) (n : Z) :
  get_selected_cities s ≠ [] →
  int (thread_count s) = Some n →
  exact_delays n (length (get_selected_cities s)) →
  start_collection s = Ok (after_start n s).
Proof.
  intros Hc Hint Hn. unfold start_collection.
  destruct (get_selected_cities s) as [|c cs] eqn:E; [contradiction|].
  cbn [thread_count set_data_text set_collecting]. rewrite Hint.
  rewrite spawn_ok by exact Hn. unfold after_start. rewrite E. reflexivity.
Qed.

Lemma start_collection_bad_count (s : WeatherGUI) :
  get_selected_cities s ≠ [] →
  int (thread_count s) = None →
  start_collection s =
  Raise ValueError (set_data_text "" (set_collecting true s)).
Proof.
  intros Hc Hint. unfold start_collection.
  destruct (get_selected_cities s) as [|c cs] eqn:E; [contradiction|].
  cbn [thread_count set_data_text set_collecting]. now rewrite Hint.
Qed.

Lemma start_collection_zero_count (s : WeatherGUI) :
  get_selected_cities s ≠ [] →
  int (thread_count s) = Some 0 →
  start_collection s =
  Raise ZeroDivisionError (set_data_text "" (set_collecting true s)).
Proof.
  intros Hc Hint. unfold start_collection.
  destruct (get_selected_cities s) as [|c cs] eqn:E; [contradiction|].
  cbn [thread_count set_data_text set_collecting]. now rewrite Hint.
Qed.

(** What a [start_collection] that goes ahead and returns has done,
    whatever the count. *)
Lemma start_collection_returned (s s' : WeatherGUI) :
  get_selected_cities s ≠ [] →
  start_collection s = Ok s' →
  ∃ n new label,
    int (thread_count s) = Some n ∧
    spawn n 0 (get_selected_cities s) (set_data_text "" (set_collecting true s))
      = Ok (set_threads (threads s ++ new)
              (set_data_text "" (set_collecting true s))) ∧
    target_city <$> new = get_selected_cities s ∧
    Forall (fun t => started t = true ∧ daemon t = true ∧
                     target_city t ∈ get_selected_cities s) new ∧
    s' = {| collecting := true; threads := threads s ++ new;
            data_queue := data_queue s; city_vars := city_vars s;
            start_btn := disabled; stop_btn := normal;
            thread_count := thread_count s; data_text := "";
            info_label := label; after_jobs := after_jobs s |}.
Proof.
  intros Hc Hok. unfold start_collection in Hok.
  destruct (get_selected_cities s) as [|c cs] eqn:E; [contradiction|].
  cbn [thread_count set_data_text set_collecting] in Hok.
  destruct (int (thread_count s)) as [n|]; [|discriminate].
  destruct (spawn_shape n 0 (c :: cs) (set_data_text "" (set_collecting true s)))
    as (new & Es & Hall & Hdone).
  destruct (spawn n 0 (c :: cs) (set_data_text "" (set_collecting true s)))
    as [sp|e sp] eqn:Esp; [|discriminate].
  cbn [state_of] in Es. subst sp. injection Hok as <-.
  exists n, new. eexists. split; [reflexivity|]. split; [exact Esp|].
  split; [now apply Hdone|]. split; [exact Hall|reflexivity].
Qed.



Lemma worker_for_delay (n : Z) (k : nat) (c : string) :
  target_delay (worker_for n k c) = (Qc_of_Z (Z.of_nat k `mod` n) * Q2Qc (1 # 2))%Qc.
Proof. reflexivity. Qed.

(** The delays handed out for a positive count all come from one list of
    [n] values. *)
Lemma delays_few (n : Z) (cities : list string) :
  1 ≤ n →
  (length (remove_dups (target_delay <$> imap (worker_for n) cities))
   ≤ Z.to_nat n)%nat.
Proof.
  intros Hn.
  set (pool := (fun r : nat => (Qc_of_Z (Z.of_nat r) * half)%Qc)
                 <$> seq 0 (Z.to_nat n)).
  replace (Z.to_nat n) with (length pool)
    by (subst pool; now rewrite length_fmap, length_seq).
  apply submseteq_length, NoDup_submseteq; [apply NoDup_remove_dups|].
  intros d Hd. rewrite elem_of_remove_dups in Hd.
  apply list_elem_of_fmap in Hd as (t & -> & Ht).
  apply elem_of_lookup_imap in Ht as (k & c & -> & _).
  subst pool. apply list_elem_of_fmap.
  exists (Z.to_nat (Z.of_nat k `mod` n)). split.
  - cbn. now rewrite Z2Nat.id by (apply Z.mod_pos_bound; lia).
  - apply elem_of_seq. pose proof (Z.mod_pos_bound (Z.of_nat k) n). lia.
Qed.

End Start.

Section StartDelay.

Lemma Qc_of_Z_nonneg (r : Z) : 0 ≤ r → (0 ≤ Qc_of_Z r)%Qc.
Proof. intros Hr. now apply (proj1 (Z2Qc_inj_le 0 r)). Qed.

Lemma half_of_nonneg (r : Z) : 0 ≤ r → ¬ (Qc_of_Z r * half < 0)%Qc.
Proof.
  intros Hr. apply Qcle_not_lt. unfold half.
  apply Qcmult_nonneg_nonneg; [now apply Qc_of_Z_nonneg|done].
Qed.

Lemma half_of_neg (r : Z) : r < 0 → (Qc_of_Z r * half < 0)%Qc.
Proof.
  intros Hr. unfold half.
  rewrite <- (Qcmult_0_l (Q2Qc (1 # 2))).
  apply Qcmult_lt_compat_r; [done|].
  now apply (proj1 (Z2Qc_inj_lt r 0)).
Qed.

Lemma half_of_mono (a b : Z) : a ≤ b → (Qc_of_Z a * half ≤ Qc_of_Z b * half)%Qc.
Proof.
  intros Hab. unfold half.
  apply Qcmult_le_mono_nonneg_r; [done|].
  now apply (proj1 (Z2Qc_inj_le a b)).
Qed.

Lemma sleep_raises_negative (secs : Qc) :
  (secs < 0)%Qc → sleep_raises secs = true.
Proof.
  intros H. unfold sleep_raises. now rewrite (bool_decide_eq_true_2 _ H).
Qed.

Lemma sleep_max_large : (Qc_of_Z (2 ^ 32) * half ≤ sleep_max)%Qc.
Proof. vm_compute. discriminate. Qed.

Lemma sleep_raises_small (r : Z) :
  0 ≤ r ≤ 2 ^ 32 → sleep_raises (Qc_of_Z r * half) = false.
Proof.
  intros Hr. unfold sleep_raises.
  rewrite bool_decide_eq_false_2 by (apply half_of_nonneg; lia).
  rewrite bool_decide_eq_false_2; [reflexivity|].
  apply Qcle_not_lt. etransitivity; [|apply sleep_max_large].
  apply half_of_mono. lia.
Qed.

Lemma worker_for_phase (n : Z) (k : nat) (c : string) :
  1 ≤ n → Z.of_nat k ≤ 2 ^ 32 →
  at_phase (worker_for n k c) = Delaying (target_delay (worker_for n k c)).
Proof.
  intros Hn Hk. unfold worker_for, thread_start. cbn.
  rewrite sleep_raises_small; [reflexivity|].
  pose proof (Z.mod_bound_pos_le (Z.of_nat k) n ltac:(lia) ltac:(lia)). lia.
Qed.

End StartDelay.

(** C1: when no city is selected [start_collection] returns normally and
    the only thing it changes is the status line, which shows the request
    to select a city in red: the flag, the worker list, the log, the queue
    and both buttons are as they were (so a flag that was down stays down
    and an empty worker list stays empty). *)
Theorem start_collection_no_city (s : WeatherGUI) :
  get_selected_cities s = [] →
  ∃ s', start_collection s = Ok s' ∧
    s' = set_info_label ("Please select at least one city!", "red") s ∧
    collecting s' = collecting s ∧
    threads s' = threads s ∧
    data_text s' = data_text s ∧
    data_queue s' = data_queue s ∧
    start_btn s' = start_btn s ∧
    stop_btn s' = stop_btn s ∧
    city_vars s' = city_vars s ∧
    thread_count s' = thread_count s ∧
    after_jobs s' = after_jobs s.
Proof.
  intros Hc. unfold start_collection. rewrite Hc.
  eexists. split; [reflexivity|]. repeat split.
Qed.

Lemma start_collection_no_city_witness :
  get_selected_cities nothing_selected = [] ∧
  ∃ s', start_collection nothing_selected = Ok s' ∧
    s' = set_info_label ("Please select at least one city!", "red")
           nothing_selected ∧
    collecting s' = collecting nothing_selected ∧
    threads s' = threads nothing_selected ∧
    data_text s' = data_text nothing_selected ∧
    data_queue s' = data_queue nothing_selected ∧
    start_btn s' = start_btn nothing_selected ∧
    stop_btn s' = stop_btn nothing_selected ∧
    city_vars s' = city_vars nothing_selected ∧
    thread_count s' = thread_count nothing_selected ∧
    after_jobs s' = after_jobs nothing_selected.
Proof.
  split; [reflexivity|].
  apply (start_collection_no_city nothing_selected). reflexivity.
Defined.




(** C5: with at least one city selected (and no more than 2^32, so that
    every delay is exact as a float and within what [time.sleep] accepts)
    and a positive worker count [n], [start_collection] returns, and the
    worker started for the city at position [i] (from 0) of the selection
    is given the delay [(i mod n) * 0.5] and begins by sleeping for it; the
    delays of the workers started take at most [n] distinct values, however
    many cities are selected. *)
Theorem start_collection_stagger (s : WeatherGUI) (n : Z) :
  get_selected_cities s ≠ [] →
  Z.of_nat (length (get_selected_cities s)) ≤ 2 ^ 32 →
  int (thread_count s) = Some n →
  1 ≤ n →
  ∃ s' new,
    start_collection s = Ok s' ∧
    threads s' = threads s ++ new ∧
    (∀ (i : nat) (c : string),
       get_selected_cities s !! i = Some c →
       ∃ t, new !! i = Some t ∧
         target_city t = c ∧
         target_delay t = (Qc_of_Z (Z.of_nat i `mod` n) * Q2Qc (1 # 2))%Qc ∧
         at_phase t = Delaying (target_delay t)) ∧
    (length (remove_dups (target_delay <$> new)) ≤ Z.to_nat n)%nat.
Proof.
  intros Hc Hk Hint Hn.
  exists (state_of (start_collection s)), (imap (worker_for n) (get_selected_cities s)).
  assert (He : exact_delays n (length (get_selected_cities s)))
    by (split; [lia|right; split; lia]).
  rewrite (start_collection_completes s n Hc Hint He).
  cbn [state_of threads after_start]. repeat split.
  - intros i c Hi. exists (worker_for n i c).
    rewrite list_lookup_imap, Hi. repeat split.
    apply lookup_lt_Some in Hi. apply worker_for_phase; lia.
  - apply delays_few. lia.
Qed.

Lemma start_collection_stagger_witness :
  get_selected_cities three_workers = CITIES ∧
  int (thread_count three_workers) = Some 3 ∧
  ∃ s' new,
    start_collection three_workers = Ok s' ∧
    threads s' = threads three_workers ++ new ∧
    (∀ (i : nat) (c : string),
       get_selected_cities three_workers !! i = Some c →
       ∃ t, new !! i = Some t ∧
         target_city t = c ∧
         target_delay t = (Qc_of_Z (Z.of_nat i `mod` 3) * Q2Qc (1 # 2))%Qc ∧
         at_phase t = Delaying (target_delay t)) ∧
    (length (remove_dups (target_delay <$> new)) ≤ Z.to_nat 3)%nat.
Proof.
  split; [vm_compute; reflexivity|]. split; [vm_compute; reflexivity|].
  apply (start_collection_stagger three_workers 3).
  - vm_compute; discriminate.
  - vm_compute; discriminate.
  - vm_compute; reflexivity.
  - lia.
Defined.



(** ** The controller: [stop_collection] *)

Section ClockArithmetic.

Lemma Qc_this_plus (x y : Qc) : (this (x + y) == this x + this y)%Q.
Proof.
  unfold Qcplus. change (this (Q2Qc ?q)) with (Qred q). apply Qred_correct.
Qed.

Lemma Qc_this_opp (x : Qc) : (this (- x) == - this x)%Q.
Proof.
  unfold Qcopp. change (this (Q2Qc ?q)) with (Qred q). apply Qred_correct.
Qed.

Lemma Qc_this_minus (x y : Qc) : (this (x - y) == this x - this y)%Q.
Proof. unfold Qcminus. rewrite Qc_this_plus, Qc_this_opp. reflexivity. Qed.

End ClockArithmetic.

(** Linear arithmetic on the clock's rationals, through their fractions. *)
Ltac qc_arith :=
  try apply Qc_is_canon;
  unfold Qcle, Qclt in *;
  change (this 0%Qc) with 0%Q in *;
  change (this 1%Qc) with 1%Q in *;
  repeat (rewrite Qc_this_plus in * || rewrite Qc_this_minus in *
          || rewrite Qc_this_opp in *);
  change (this 0%Qc) with 0%Q in *;
  change (this 1%Qc) with 1%Q in *;
  lra.

Ltac qc_cases :=
  unfold Qcmin, Qcmax in *;
  repeat match goal with
         | |- context [decide ?P] => destruct (decide P)
         | H : context [decide ?P] |- _ => destruct (decide P)
         end.

Section Stop.

Lemma Qcmin_le_l (x y : Qc) : (Qcmin x y ≤ x)%Qc.
Proof. qc_cases; qc_arith. Qed.

Lemma Qcmin_le_r (x y : Qc) : (Qcmin x y ≤ y)%Qc.
Proof. qc_cases; qc_arith. Qed.

Lemma Qcmin_nonneg (x y : Qc) : (0 ≤ x)%Qc → (0 ≤ y)%Qc → (0 ≤ Qcmin x y)%Qc.
Proof. intros. qc_cases; qc_arith. Qed.

Lemma Qcmax_nonneg (r : Qc) : (0 ≤ Qcmax 0 r)%Qc.
Proof. qc_cases; qc_arith. Qed.

Lemma Qcmax_of_nonneg (r : Qc) : (0 ≤ r)%Qc → Qcmax 0 (r - 0) = r.
Proof. intros. qc_cases; qc_arith. Qed.

Lemma Qcmax_minus_minus (x a b : Qc) :
  (0 ≤ b)%Qc → Qcmax 0 (Qcmax 0 (x - a) - b) = Qcmax 0 (x - (a + b)).
Proof. intros. qc_cases; qc_arith. Qed.

Lemma time_to_exit_nonneg (p : phase) : (0 ≤ time_to_exit p)%Qc.
Proof. destruct p; simpl; try reflexivity; apply Qcmax_nonneg. Qed.

(** What a worker still needs after [held] more time with the flag down. *)
Lemma time_to_exit_pass (held : Qc) (p : phase) :
  (0 ≤ held)%Qc →
  time_to_exit (leave_loop (elapse held p)) = Qcmax 0 (time_to_exit p - held).
Proof.
  intros Hh. destruct p as [|r| |r|]; cbn [elapse leave_loop time_to_exit];
    try (qc_cases; qc_arith);
    destruct (decide (r ≤ held)%Qc); cbn [leave_loop time_to_exit];
    qc_cases; qc_arith.
Qed.

(** A join with a time out of one unit holds the caller for at most one
    unit, and no longer than the worker takes to finish. *)
Lemma join_bounded (t : Thread) :
  started t = true →
  join 1%Qc t = Some (Qcmin 1%Qc (time_to_exit (at_phase t))) ∧
  (0 ≤ Qcmin 1%Qc (time_to_exit (at_phase t)))%Qc.
Proof.
  unfold started, join. intros Hs.
  split; [destruct (at_phase t); [discriminate|reflexivity..]|].
  apply Qcmin_nonneg; [done|apply time_to_exit_nonneg].
Qed.

Lemma join_not_started (timeout : Qc) (t : Thread) :
  started t = false → join timeout t = None.
Proof. unfold started, join. now destruct (at_phase t). Qed.

Lemma pass_time_stopped_started (dt : Qc) (s : WeatherGUI) :
  Forall (fun t => started t = true) (threads s) →
  Forall (fun t => started t = true) (threads (pass_time_stopped dt s)).
Proof.
  intros H. cbn. apply Forall_fmap. eapply Forall_impl; [exact H|].
  intros t. unfold started. cbn.
  destruct (at_phase t); cbn; try done; now destruct (decide _).
Qed.

Lemma Qcle_add_nonneg (x y : Qc) : (0 ≤ y)%Qc → (x ≤ x + y)%Qc.
Proof. intros. qc_arith. Qed.

Lemma tick_tick (a b : Qc) (w : World) : tick b (tick a w) = tick (a + b) w.
Proof. unfold tick. cbn. f_equal. qc_arith. Qed.

Lemma tick_zero (w : World) : tick 0 w = w.
Proof. destruct w as [g c]. unfold tick. cbn. f_equal. qc_arith. Qed.

Lemma join_waits_length (e : Qc) (needs : list Qc) :
  length (join_waits e needs) = length needs.
Proof.
  revert e. induction needs as [|r rest IH]; intros e; [reflexivity|].
  cbn. now rewrite IH.
Qed.

Lemma join_waits_bounded (e : Qc) (needs : list Qc) :
  Forall (fun held => (0 ≤ held)%Qc ∧ (held ≤ 1)%Qc) (join_waits e needs).
Proof.
  revert e. induction needs as [|r rest IH]; intros e; [constructor|].
  cbn. constructor; [|apply IH].
  split; [apply Qcmin_nonneg; [done|apply Qcmax_nonneg]|apply Qcmin_le_l].
Qed.

Lemma Qcsum_bounded (l : list Qc) :
  Forall (fun held => (0 ≤ held)%Qc ∧ (held ≤ 1)%Qc) l →
  (0 ≤ Qcsum l)%Qc ∧ (Qcsum l ≤ Qc_of_Z (Z.of_nat (length l)))%Qc.
Proof.
  induction 1 as [|x l [H0 H1] _ [IH0 IH1]]; [split; done|].
  cbn [Qcsum foldr length]. fold (Qcsum l).
  rewrite Nat2Z.inj_succ, <- Z.add_1_l, Z2Qc_inj_add.
  replace (Qc_of_Z 1) with 1%Qc by now apply Qc_is_canon.
  split; qc_arith.
Qed.

(** The loop over the workers, entered at position [i] when [e] has passed
    since the flag went down: it returns, changes nothing but the workers'
    progress, and holds the caller for the waits [join_waits] lists. *)
Lemma join_each_waits (m i : nat) (needs : list Qc) (e : Qc)
    (s : WeatherGUI) (w : World) :
  Forall (fun t => started t = true) (threads s) →
  (0 ≤ e)%Qc →
  (fun t => time_to_exit (at_phase t)) <$> threads s
    = (fun r => Qcmax 0 (r - e)) <$> needs →
  (i + m = length needs)%nat →
  ∃ ts, join_each (seq i m) s w
        = Ok (set_threads ts s, tick (Qcsum (join_waits e (drop i needs))) w).
Proof.
  revert i e s w. induction m as [|m IH]; intros i e s w Hst He Hneeds Hlen.
  - exists (threads s). cbn [seq join_each].
    rewrite drop_ge by lia. cbn. rewrite tick_zero. now destruct s.
  - cbn [seq join_each].
    assert (Hi : (i < length needs)%nat) by lia.
    destruct (lookup_lt_is_Some_2 needs i Hi) as [r Hr].
    assert (Hlt : (i < length (threads s))%nat).
    { apply (f_equal length) in Hneeds. rewrite !length_fmap in Hneeds. lia. }
    destruct (lookup_lt_is_Some_2 (threads s) i Hlt) as [t Ht].
    rewrite Ht.
    assert (Hstt : started t = true).
    { rewrite Forall_forall in Hst. apply Hst.
      eapply list_elem_of_lookup_2, Ht. }
    destruct (join_bounded t Hstt) as [-> Hh].
    assert (Hneed : time_to_exit (at_phase t) = Qcmax 0 (r - e)).
    { apply (f_equal (fun l => l !! i)) in Hneeds.
      rewrite !list_lookup_fmap, Ht, Hr in Hneeds. now injection Hneeds. }
    set (held := Qcmin 1%Qc (time_to_exit (at_phase t))) in *.
    destruct (IH (Datatypes.S i) (e + held)%Qc (pass_time_stopped held s)
                (tick held w))
      as [ts Hts].
    + now apply pass_time_stopped_started.
    + qc_arith.
    + cbn [pass_time_stopped threads set_threads].
      rewrite <- list_fmap_compose.
      transitivity ((fun x => Qcmax 0 (x - held))
                      <$> ((fun t => time_to_exit (at_phase t)) <$> threads s)).
      * rewrite <- list_fmap_compose. apply list_fmap_ext.
        intros k x _. cbn. now apply time_to_exit_pass.
      * rewrite Hneeds, <- list_fmap_compose. apply list_fmap_ext.
        intros k x _. cbn. now apply Qcmax_minus_minus.
    + lia.
    + exists ts. rewrite Hts. f_equal. f_equal.
      rewrite (drop_S needs r i Hr). cbn [join_waits Qcsum foldr].
      rewrite <- Hneed. fold held. fold (Qcsum (join_waits (e + held) (drop (Datatypes.S i) needs))).
      now rewrite tick_tick.
Qed.

(** [stop_collection] returns [after_stop], having been held for the
    waits of its joins. *)
Lemma stop_collection_fields (s : WeatherGUI) (w : World) :
  Forall (fun t => started t = true) (threads s) →
  stop_collection s w =
  Ok (after_stop s,
      tick (Qcsum (join_waits 0 ((fun t => time_to_exit (at_phase t))
                                   <$> threads s))) w).
Proof.
  intros Hst. unfold stop_collection.
  destruct (join_each_waits (length (threads s)) 0
              ((fun t => time_to_exit (at_phase t)) <$> threads s) 0%Qc
              (set_collecting false s) w) as [ts Hts].
  - exact Hst.
  - done.
  - cbn [threads set_collecting]. rewrite <- list_fmap_compose.
    apply list_fmap_ext. intros k t _. cbn.
    symmetry. apply Qcmax_of_nonneg, time_to_exit_nonneg.
  - now rewrite length_fmap.
  - cbn [threads set_collecting] in *. rewrite Hts. reflexivity.
Qed.

End Stop.

(** C3: called on any object whose listed workers have been started,
    whatever point of their sleeps they are at, [stop_collection] returns
    normally with the flag down and the worker list empty.  It joins the
    listed workers one after the other: the join of a worker lasts until
    that worker has finished, counting the time the earlier joins took, or
    for one time unit if it has not finished by then; the clock advances by
    exactly the sum of these waits, one wait per listed worker, each between
    0 and 1, and nothing else of the world changes. *)
Theorem stop_collection_returns (s : WeatherGUI) (w : World) :
  Forall (fun t => started t = true) (threads s) →
  ∃ s' w' waits,
    stop_collection s w = Ok (s', w') ∧
    collecting s' = false ∧
    threads s' = [] ∧
    waits = join_waits 0 ((fun t => time_to_exit (at_phase t)) <$> threads s) ∧
    length waits = length (threads s) ∧
    Forall (fun held => (0 ≤ held)%Qc ∧ (held ≤ 1)%Qc) waits ∧
    clock w' = (clock w + Qcsum waits)%Qc ∧
    rng w' = rng w ∧
    (clock w ≤ clock w')%Qc ∧
    (clock w' ≤ clock w + Qc_of_Z (Z.of_nat (length (threads s))))%Qc.
Proof.
  intros Hst. rewrite (stop_collection_fields s w Hst).
  set (waits := join_waits 0 ((fun t => time_to_exit (at_phase t)) <$> threads s)).
  assert (Hlen : length waits = length (threads s))
    by (subst waits; now rewrite join_waits_length, length_fmap).
  pose proof (join_waits_bounded 0
                ((fun t => time_to_exit (at_phase t)) <$> threads s)) as Hb.
  fold waits in Hb.
  destruct (Qcsum_bounded waits Hb) as [H0 H1]. rewrite Hlen in H1.
  exists (after_stop s), (tick (Qcsum waits) w), waits.
  split; [reflexivity|]. cbn [collecting threads after_stop tick clock rng].
  do 7 (split; [done|]).
  split; qc_arith.
Qed.

Lemma stop_collection_returns_witness :
  Forall (fun t => started t = true) (threads sleepers) ∧
  join_waits 0 ((fun t => time_to_exit (at_phase t)) <$> threads sleepers)
    = [half; half; 1%Qc] ∧
  ∃ s' w' waits,
    stop_collection sleepers sample_world = Ok (s', w') ∧
    collecting s' = false ∧
    threads s' = [] ∧
    waits = join_waits 0 ((fun t => time_to_exit (at_phase t))
                            <$> threads sleepers) ∧
    length waits = length (threads sleepers) ∧
    Forall (fun held => (0 ≤ held)%Qc ∧ (held ≤ 1)%Qc) waits ∧
    clock w' = (clock sample_world + Qcsum waits)%Qc ∧
    rng w' = rng sample_world ∧
    (clock sample_world ≤ clock w')%Qc ∧
    (clock w' ≤ clock sample_world +
                Qc_of_Z (Z.of_nat (length (threads sleepers))))%Qc.
Proof.
  split; [vm_compute; repeat constructor|].
  split; [vm_compute; reflexivity|].
  apply (stop_collection_returns sleepers sample_world).
  vm_compute; repeat constructor.
Defined.

(** ** The running program *)

Section Running.

Lemma sample_gui_well_formed : well_formed sample_gui.
Proof.
  split; [left; split; reflexivity|]. split; [now split|].
  split; [constructor|reflexivity].
Qed.

Lemma sample_gui_follows : buttons_follow_flag sample_gui.
Proof. unfold buttons_follow_flag. vm_compute. now repeat split. Qed.

Lemma toggle_keys (c : string) (vars : list (string * bool)) :
  fst <$> toggle c vars = fst <$> vars.
Proof.
  unfold toggle. rewrite <- list_fmap_compose. apply list_fmap_ext.
  intros i [k v] _. cbn. now destruct (String.eqb k c).
Qed.

Lemma get_selected_cities_sublist (s : WeatherGUI) :
  get_selected_cities s `sublist_of` (fst <$> city_vars s).
Proof. unfold get_selected_cities. apply fmap_sublist, sublist_filter. Qed.

Lemma get_selected_cities_elem (s : WeatherGUI) (c : string) :
  c ∈ get_selected_cities s → c ∈ fst <$> city_vars s.
Proof.
  unfold get_selected_cities. intros Hc.
  apply list_elem_of_fmap in Hc as (kv & -> & Hkv).
  apply list_elem_of_fmap. exists kv. split; [reflexivity|].
  now apply list_elem_of_filter in Hkv as [_ Hkv].
Qed.

Lemma CITIES_NoDup : NoDup CITIES.
Proof. apply (bool_decide_unpack (NoDup CITIES)). vm_compute. exact I. Qed.

(** How [start_collection] can end: with the request to select a city; by
    an exception, with the flag up, the log erased and some workers already
    listed; or normally. *)
Lemma start_collection_cases (s : WeatherGUI) :
  (get_selected_cities s = [] ∧
   start_collection s =
     Ok (set_info_label ("Please select at least one city!", "red") s)) ∨
  (∃ new,
     Forall (fun t => started t = true ∧ daemon t = true ∧
                      target_city t ∈ get_selected_cities s) new ∧
     ((∃ e, start_collection s =
              Raise e (set_threads (threads s ++ new)
                         (set_data_text "" (set_collecting true s)))) ∨
      (∃ label, start_collection s =
         Ok {| collecting := true; threads := threads s ++ new;
               data_queue := data_queue s; city_vars := city_vars s;
               start_btn := disabled; stop_btn := normal;
               thread_count := thread_count s; data_text := "";
               info_label := label; after_jobs := after_jobs s |}))).
Proof.
  destruct (get_selected_cities s) as [|c cs] eqn:Hc.
  - left. split; [reflexivity|]. unfold start_collection. now rewrite Hc.
  - right. unfold start_collection. rewrite Hc.
    cbn [thread_count set_data_text set_collecting].
    destruct (int (thread_count s)) as [n|].
    + destruct (spawn_shape n 0 (c :: cs)
                  (set_data_text "" (set_collecting true s)))
        as (new & Es & Hall & _).
      exists new. split; [exact Hall|].
      destruct (spawn n 0 (c :: cs) (set_data_text "" (set_collecting true s)))
        as [sp|e sp]; cbn [state_of] in Es; subst sp.
      * right. eexists. reflexivity.
      * left. exists e. reflexivity.
    + exists []. split; [constructor|]. left. exists ValueError.
      rewrite app_nil_r. now destruct s.
Qed.

Lemma stop_collection_after_stop (s : WeatherGUI) (w : World) :
  Forall (fun t => started t = true ∧ daemon t = true ∧ target_city t ∈ CITIES)
         (threads s) →
  ∃ w', stop_collection s w = Ok (after_stop s, w').
Proof.
  intros Hst. eexists. apply stop_collection_fields.
  eapply Forall_impl; [exact Hst|]. now intros t [H _].
Qed.

Lemma set_phase_keeps (p : phase) (t : Thread) :
  p ≠ NotStarted →
  daemon t = true ∧ target_city t ∈ CITIES →
  started (set_phase p t) = true ∧ daemon (set_phase p t) = true ∧
  target_city (set_phase p t) ∈ CITIES.
Proof.
  intros Hp [Hd Hc]. split; [|now split].
  unfold started. cbn. now destruct p.
Qed.

Lemma elapse_started (dt : Qc) (p : phase) :
  p ≠ NotStarted → elapse dt p ≠ NotStarted.
Proof. destruct p; cbn; try done; now destruct (decide _). Qed.

Lemma dispatch_well_formed (ev : event) (s : WeatherGUI) (w : World) :
  well_formed s → well_formed (state_of (dispatch ev (s, w))).1.
Proof.
  intros Hwf. pose proof Hwf as (Hex & Hno & Hst & Hk).
  destruct ev; cbn [dispatch].
  - (* ClickStart *)
    destruct (start_btn s) eqn:Hb; [|exact Hwf].
    destruct (start_collection_cases s)
      as [[_ ->]|(new & Hnew & [[e ->]|[label ->]])];
      cbn [lift_gui state_of fst].
    + exact Hwf.
    + split; [exact Hex|]. split; [discriminate|]. split; [|exact Hk].
      cbn [threads set_threads]. apply Forall_app. split; [exact Hst|].
      eapply Forall_impl; [exact Hnew|]. intros t (H1 & H2 & H3).
      split; [exact H1|]. split; [exact H2|].
      rewrite <- Hk. now apply get_selected_cities_elem.
    + split; [right; now split|]. split; [discriminate|]. split; [|exact Hk].
      cbn [threads]. apply Forall_app. split; [exact Hst|].
      eapply Forall_impl; [exact Hnew|]. intros t (H1 & H2 & H3).
      split; [exact H1|]. split; [exact H2|].
      rewrite <- Hk. now apply get_selected_cities_elem.
  - (* ClickStop *)
    destruct (stop_btn s) eqn:Hb; [|exact Hwf].
    destruct (stop_collection_after_stop s w Hst) as (w' & ->).
    cbn [state_of fst]. split; [left; now split|]. split; [now split|].
    split; [constructor|exact Hk].
  - (* ToggleCity *)
    cbn [state_of fst]. split; [exact Hex|]. split; [exact Hno|].
    split; [exact Hst|]. cbn [city_vars set_city_vars]. now rewrite toggle_keys.
  - exact Hwf.
  - (* Timer *)
    destruct (after_jobs s) as [|[ms []] rest]; [exact Hwf|].
    cbn [state_of fst]. rewrite process_queue_fields. exact Hwf.
  - (* Elapse *)
    destruct (decide (0 ≤ dt)%Qc); [|exact Hwf]. cbn [state_of fst].
    split; [exact Hex|]. split; [|split; [|exact Hk]].
    + intros Hb. destruct (Hno Hb) as [H1 H2]. split; [exact H1|].
      cbn [threads set_threads]. now rewrite H2.
    + cbn [threads set_threads]. apply Forall_fmap.
      eapply Forall_impl; [exact Hst|]. intros t (H1 & H2 & H3).
      apply set_phase_keeps; [|now split].
      apply elapse_started. unfold started in H1. now destruct (at_phase t).
  - (* WorkerTurn *)
    destruct (threads s !! i) as [t|] eqn:Hi; [|exact Hwf].
    assert (Ht : daemon t = true ∧ target_city t ∈ CITIES).
    { rewrite Forall_forall in Hst.
      destruct (Hst t) as (_ & H2 & H3); [|now split].
      eapply list_elem_of_lookup_2, Hi. }
    destruct (at_phase t) eqn:Hp; try exact Hwf.
    unfold collect_weather_turn. destruct (collecting s) eqn:Hc.
    + destruct (collect_weather_body_total (target_city t) s w)
        as (s1 & w1 & d & E).
      rewrite E. cbn [mbind option_bind state_of fst].
      apply collect_weather_body_puts in E as (r & w' & _ & ->).
      split; [exact Hex|]. split; [cbn; congruence|]. split; [|exact Hk].
      cbn [threads set_threads set_data_queue].
      apply Forall_insert; [exact Hst|]. now apply set_phase_keeps.
    + destruct (Hno eq_refl) as [_ Hnil]. rewrite Hnil in Hi. discriminate.
  - (* AbandonedWorkerTurn *)
    destruct (collecting s); [|exact Hwf].
    destruct (collect_weather_body_total c s w) as (s1 & w1 & d & E).
    rewrite E. apply collect_weather_body_puts in E as (r & w' & _ & ->).
    exact Hwf.
Qed.

Lemma run_cons (ev : event) (evs : list event) (sw : WeatherGUI * World) :
  run (ev :: evs) sw = run evs (state_of (dispatch ev sw)).
Proof. reflexivity. Qed.

Lemma run_app (evs1 evs2 : list event) (sw : WeatherGUI * World) :
  run (evs1 ++ evs2) sw = run evs2 (run evs1 sw).
Proof. apply foldl_app. Qed.

Lemma run_well_formed (evs : list event) (s : WeatherGUI) (w : World) :
  well_formed s → well_formed (run evs (s, w)).1.
Proof.
  revert s w. induction evs as [|ev evs IH]; intros s w Hwf; [exact Hwf|].
  rewrite run_cons.
  pose proof (dispatch_well_formed ev s w Hwf) as Hwf'.
  destruct (state_of (dispatch ev (s, w))) as [s1 w1]. now apply IH.
Qed.

Lemma dispatch_follows (ev : event) (s : WeatherGUI) (w : World) :
  well_formed s → buttons_follow_flag s →
  completed (dispatch ev (s, w)) = true →
  buttons_follow_flag (state_of (dispatch ev (s, w))).1.
Proof.
  intros (Hex & Hno & Hst & Hk) Hf. destruct ev; cbn [dispatch].
  - destruct (start_btn s) eqn:Hb; [|now intros _].
    destruct (start_collection_cases s)
      as [[_ ->]|(new & Hnew & [[e ->]|[label ->]])];
      cbn [lift_gui state_of fst completed].
    + now intros _.
    + discriminate.
    + intros _. now repeat split.
  - destruct (stop_btn s) eqn:Hb; [|now intros _].
    destruct (stop_collection_after_stop s w Hst) as (w' & ->).
    intros _. now repeat split.
  - now intros _.
  - now intros _.
  - destruct (after_jobs s) as [|[ms []] rest]; [now intros _|].
    cbn [state_of fst]. rewrite process_queue_fields. now intros _.
  - destruct (decide (0 ≤ dt)%Qc); now intros _.
  - destruct (threads s !! i) as [t|] eqn:Hi; [|now intros _].
    destruct (at_phase t) eqn:Hp; try now intros _.
    unfold collect_weather_turn. destruct (collecting s) eqn:Hc.
    + destruct (collect_weather_body_total (target_city t) s w)
        as (s1 & w1 & d & E).
      rewrite E. cbn [mbind option_bind state_of fst].
      apply collect_weather_body_puts in E as (r & w' & _ & ->).
      intros _. exact Hf.
    + intros _. exact Hf.
  - destruct (collecting s) eqn:Hc; [|now intros _].
    destruct (collect_weather_body_total c s w) as (s1 & w1 & d & E).
    rewrite E. apply collect_weather_body_puts in E as (r & w' & _ & ->).
    intros _. exact Hf.
Qed.

Lemma run_follows (evs : list event) (s : WeatherGUI) (w : World) :
  well_formed s → buttons_follow_flag s →
  all_completed evs (s, w) = true →
  buttons_follow_flag (run evs (s, w)).1.
Proof.
  revert s w. induction evs as [|ev evs IH]; intros s w Hwf Hf Hall;
    [exact Hf|].
  rewrite run_cons. cbn [all_completed] in Hall.
  apply andb_true_iff in Hall as [Hc Hall].
  pose proof (dispatch_well_formed ev s w Hwf) as Hwf'.
  pose proof (dispatch_follows ev s w Hwf Hf Hc) as Hf'.
  destruct (state_of (dispatch ev (s, w))) as [s1 w1]. now apply IH.
Qed.

End Running.

(** C8 at its failing input.  On an object with the flag down, Start
    enabled, Stop disabled, all cities ticked and the count 0, pressing
    Start raises [ZeroDivisionError] after the flag went up and before the
    buttons are switched; after every city is unticked, pressing Start
    again returns normally through the request to select a city, and the
    object then has the flag up with Start enabled and Stop disabled. *)
Theorem buttons_mirror_flag_fails :
  buttons_follow_flag zero_count ∧
  dispatch ClickStart (zero_count, sample_world)
    = Raise ZeroDivisionError
            (set_data_text "" (set_collecting true zero_count), sample_world) ∧
  get_selected_cities zero_aborted = [] ∧
  start_collection zero_aborted
    = Ok (set_info_label ("Please select at least one city!", "red")
            zero_aborted) ∧
  collecting (state_of (start_collection zero_aborted)) = true ∧
  start_btn (state_of (start_collection zero_aborted)) = normal ∧
  stop_btn (state_of (start_collection zero_aborted)) = disabled ∧
  ¬ buttons_follow_flag (state_of (start_collection zero_aborted)).
Proof.
  split; [unfold buttons_follow_flag; vm_compute; now repeat split|].
  split; [vm_compute; reflexivity|].
  split; [vm_compute; reflexivity|].
  split; [vm_compute; reflexivity|].
  split; [vm_compute; reflexivity|].
  split; [vm_compute; reflexivity|].
  split; [vm_compute; reflexivity|].
  intros [H _]. assert (Hc : collecting (state_of (start_collection zero_aborted)) = true)
    by (vm_compute; reflexivity).
  apply H in Hc. vm_compute in Hc. discriminate.
Qed.

(** * Further properties of the controller *)

Section Outcomes.

(** A [start_collection] that goes ahead and returns: the fields of the
    object it returns. *)
Lemma start_collection_goes_ahead (s s' : WeatherGUI) :
  get_selected_cities s ≠ [] →
  start_collection s = Ok s' →
  ∃ new label,
    s' = {| collecting := true; threads := threads s ++ new;
            data_queue := data_queue s; city_vars := city_vars s;
            start_btn := disabled; stop_btn := normal;
            thread_count := thread_count s; data_text := "";
            info_label := label; after_jobs := after_jobs s |}.
Proof.
  intros Hc Hok.
  destruct (start_collection_returned s s' Hc Hok)
    as (n & new & label & _ & _ & _ & _ & ->).
  now exists new, label.
Qed.

Lemma exact_delays_small (n : Z) (k : nat) :
  n ≠ 0 → - 2 ^ 53 ≤ n ≤ 2 ^ 53 → exact_delays n k.
Proof. intros Hn Hb. split; [exact Hn|now left]. Qed.

Lemma round_to_double_large (a : Z) :
  2 ^ 1024 ≤ a → 2 ^ 1024 ≤ round_to_double a.
Proof.
  intros Ha. unfold round_to_double.
  assert (H53 : 2 ^ 53 ≤ 2 ^ 1024) by (apply Z.pow_le_mono_r; lia).
  assert (Hpos : 0 < a) by lia.
  destruct (Z.ltb_spec a (2 ^ 53)) as [Hlt|_]; [lia|].
  cbv zeta.
  assert (Hl : 1024 ≤ Z.log2 a) by (apply Z.log2_le_pow2; lia).
  set (e := Z.log2 a - 52).
  assert (He : 0 < 2 ^ e) by (apply Z.pow_pos_nonneg; lia).
  assert (Hq : 2 ^ 52 ≤ a / 2 ^ e).
  { apply Z.div_le_lower_bound; [exact He|].
    rewrite Z.mul_comm, <- Z.pow_add_r by lia.
    replace (52 + e) with (Z.log2 a) by lia.
    now apply Z.log2_spec. }
  assert (Hr : 2 ^ 1024 ≤ a / 2 ^ e * 2 ^ e).
  { transitivity (2 ^ 52 * 2 ^ e).
    - rewrite <- Z.pow_add_r by lia. apply Z.pow_le_mono_r; lia.
    - apply Z.mul_le_mono_nonneg_r; lia. }
  destruct (_ || _); nia.
Qed.

Lemma float_overflow (n : Z) : 2 ^ 1024 ≤ Z.abs n → float n = None.
Proof.
  intros Hn. unfold float.
  pose proof (round_to_double_large (Z.abs n) Hn) as Hr.
  now destruct (Z.leb_spec (2 ^ 1024) (round_to_double (Z.abs n))); [|lia].
Qed.

Lemma string_app_empty_l (a : string) : "" +:+ a = a.
Proof. reflexivity. Qed.

End Outcomes.

(** X1: with some city selected and a Spinbox text that reads as the
    integer 0, [start_collection] raises [ZeroDivisionError] at the first
    city: the flag is already up and the log already erased, no worker has
    been created, and the buttons, the status line and the queue are as
    they were. *)
Theorem start_collection_zero_count_aborts (s : WeatherGUI) :
  get_selected_cities s ≠ [] →
  int (thread_count s) = Some 0 →
  ∃ s', start_collection s = Raise ZeroDivisionError s' ∧
    collecting s' = true ∧
    data_text s' = "" ∧
    threads s' = threads s ∧
    start_btn s' = start_btn s ∧
    stop_btn s' = stop_btn s ∧
    info_label s' = info_label s ∧
    data_queue s' = data_queue s.
Proof.
  intros Hc Hint. rewrite start_collection_zero_count by assumption.
  eexists. split; [reflexivity|]. repeat split.
Qed.

Lemma start_collection_zero_count_aborts_witness :
  get_selected_cities (set_thread_count (text " 0 ") two_cities_stopped.1) ≠ [] ∧
  int (thread_count (set_thread_count (text " 0 ") two_cities_stopped.1)) = Some 0 ∧
  ∃ s', start_collection (set_thread_count (text " 0 ") two_cities_stopped.1)
          = Raise ZeroDivisionError s' ∧
    collecting s' = true ∧
    data_text s' = "" ∧
    threads s' = threads (set_thread_count (text " 0 ") two_cities_stopped.1) ∧
    start_btn s' = start_btn (set_thread_count (text " 0 ") two_cities_stopped.1) ∧
    stop_btn s' = stop_btn (set_thread_count (text " 0 ") two_cities_stopped.1) ∧
    info_label s' = info_label (set_thread_count (text " 0 ") two_cities_stopped.1) ∧
    data_queue s' = data_queue (set_thread_count (text " 0 ") two_cities_stopped.1).
Proof.
  split; [vm_compute; discriminate|]. split; [vm_compute; reflexivity|].
  apply (start_collection_zero_count_aborts
           (set_thread_count (text " 0 ") two_cities_stopped.1)).
  - vm_compute; discriminate.
  - vm_compute; reflexivity.
Defined.

(** X2: with some city selected and a Spinbox text that [int] rejects,
    [start_collection] raises [ValueError] from [int]: the flag is already
    up and the log already erased, no worker has been created, and the
    buttons, the status line and the queue are as they were. *)
Theorem start_collection_bad_text_aborts (s : WeatherGUI) :
  get_selected_cities s ≠ [] →
  int (thread_count s) = None →
  ∃ s', start_collection s = Raise ValueError s' ∧
    collecting s' = true ∧
    data_text s' = "" ∧
    threads s' = threads s ∧
    start_btn s' = start_btn s ∧
    stop_btn s' = stop_btn s ∧
    info_label s' = info_label s ∧
    data_queue s' = data_queue s.
Proof.
  intros Hc Hint. rewrite start_collection_bad_count by assumption.
  eexists. split; [reflexivity|]. repeat split.
Qed.

Lemma start_collection_bad_text_aborts_witness :
  get_selected_cities (set_thread_count (text "2.5") two_cities_stopped.1) ≠ [] ∧
  int (thread_count (set_thread_count (text "2.5") two_cities_stopped.1)) = None ∧
  ∃ s', start_collection (set_thread_count (text "2.5") two_cities_stopped.1)
          = Raise ValueError s' ∧
    collecting s' = true ∧
    data_text s' = "" ∧
    threads s' = threads (set_thread_count (text "2.5") two_cities_stopped.1) ∧
    start_btn s' = start_btn (set_thread_count (text "2.5") two_cities_stopped.1) ∧
    stop_btn s' = stop_btn (set_thread_count (text "2.5") two_cities_stopped.1) ∧
    info_label s' = info_label (set_thread_count (text "2.5") two_cities_stopped.1) ∧
    data_queue s' = data_queue (set_thread_count (text "2.5") two_cities_stopped.1).
Proof.
  split; [vm_compute; discriminate|]. split; [vm_compute; reflexivity|].
  apply (start_collection_bad_text_aborts
           (set_thread_count (text "2.5") two_cities_stopped.1)).
  - vm_compute; discriminate.
  - vm_compute; reflexivity.
Defined.

(** X3: with some city selected and a negative count not below -2^53,
    [start_collection] returns normally with the flag up, but [i % n] is
    then zero or negative: the worker at a position that is a multiple of
    the count begins its (zero) delay, and every other worker is handed a
    negative delay, on which [time.sleep] raises, so that it has ended
    before it collects anything. *)
Theorem start_collection_negative_count (s : WeatherGUI) (n : Z) :
  get_selected_cities s ≠ [] →
  int (thread_count s) = Some n →
  - 2 ^ 53 ≤ n < 0 →
  ∃ s', start_collection s = Ok s' ∧
    collecting s' = true ∧
    ∀ (i : nat) (c : string),
      get_selected_cities s !! i = Some c →
      ∃ t, threads s' !! (length (threads s) + i)%nat = Some t ∧
        target_city t = c ∧
        (Z.of_nat i `mod` n = 0 → at_phase t = Delaying (target_delay t)) ∧
        (Z.of_nat i `mod` n ≠ 0 → at_phase t = Exited).
Proof.
  intros Hc Hint Hn.
  rewrite (start_collection_completes s n Hc Hint)
    by (apply exact_delays_small; lia).
  eexists. split; [reflexivity|]. split; [reflexivity|].
  intros i c Hi. exists (worker_for n i c). cbn [threads after_start].
  split.
  { rewrite lookup_app_r by lia.
    replace (length (threads s) + i - length (threads s))%nat with i by lia.
    now rewrite list_lookup_imap, Hi. }
  split; [reflexivity|].
  unfold worker_for, thread_start. cbn [at_phase set_phase target_delay].
  pose proof (Z.mod_neg_bound (Z.of_nat i) n ltac:(lia)) as Hb.
  split; intros Hm.
  - rewrite Hm. now rewrite (sleep_raises_small 0) by lia.
  - rewrite sleep_raises_negative; [reflexivity|apply half_of_neg; lia].
Qed.

Lemma start_collection_negative_count_witness :
  get_selected_cities (set_thread_count (text "-3") sample_gui) ≠ [] ∧
  int (thread_count (set_thread_count (text "-3") sample_gui)) = Some (-3) ∧
  ∃ s', start_collection (set_thread_count (text "-3") sample_gui) = Ok s' ∧
    collecting s' = true ∧
    ∀ (i : nat) (c : string),
      get_selected_cities (set_thread_count (text "-3") sample_gui) !! i = Some c →
      ∃ t, threads s' !!
             (length (threads (set_thread_count (text "-3") sample_gui)) + i)%nat
           = Some t ∧
        target_city t = c ∧
        (Z.of_nat i `mod` (-3) = 0 → at_phase t = Delaying (target_delay t)) ∧
        (Z.of_nat i `mod` (-3) ≠ 0 → at_phase t = Exited).
Proof.
  split; [vm_compute; discriminate|]. split; [vm_compute; reflexivity|].
  apply (start_collection_negative_count
           (set_thread_count (text "-3") sample_gui) (-3)).
  - vm_compute; discriminate.
  - vm_compute; reflexivity.
  - lia.
Defined.

(** X4: a [start_collection] that goes ahead and returns puts the buttons
    in step with the flag whatever they were before, also after an earlier
    start was aborted: the flag is up, Start is disabled and Stop is
    enabled. *)
Theorem start_collection_restores_buttons (s s' : WeatherGUI) :
  get_selected_cities s ≠ [] →
  start_collection s = Ok s' →
  collecting s' = true ∧ start_btn s' = disabled ∧ stop_btn s' = normal ∧
  buttons_exclusive s' ∧ buttons_follow_flag s'.
Proof.
  intros Hc Hok.
  destruct (start_collection_goes_ahead s s' Hc Hok) as (new & label & ->).
  repeat split; try discriminate; try (right; now split).
Qed.

Lemma start_collection_restores_buttons_witness :
  let s := set_thread_count (text "2")
             (state_of (start_collection
                          (set_thread_count (text "0") two_cities_stopped.1))) in
  (collecting s = true ∧ start_btn s = normal ∧ stop_btn s = disabled) ∧
  get_selected_cities s ≠ [] ∧
  start_collection s = Ok (state_of (start_collection s)) ∧
  collecting (state_of (start_collection s)) = true ∧
  start_btn (state_of (start_collection s)) = disabled ∧
  stop_btn (state_of (start_collection s)) = normal ∧
  buttons_exclusive (state_of (start_collection s)) ∧
  buttons_follow_flag (state_of (start_collection s)).
Proof.
  cbv zeta. split; [vm_compute; repeat split|].
  split; [vm_compute; discriminate|].
  split; [vm_compute; reflexivity|].
  apply (start_collection_restores_buttons
           (set_thread_count (text "2")
              (state_of (start_collection
                           (set_thread_count (text "0") two_cities_stopped.1))))).
  - vm_compute; discriminate.
  - vm_compute; reflexivity.
Defined.

(** X5: [start_collection] erases the log but not the queue: what was
    still queued when it is called stays queued, in order, and is what the
    next drain step writes at the top of the erased log. *)
Theorem start_collection_keeps_queue (s s' : WeatherGUI) :
  get_selected_cities s ≠ [] →
  start_collection s = Ok s' →
  data_queue s' = data_queue s ∧
  data_text (process_queue s') = rendered (data_queue s).
Proof.
  intros Hc Hok.
  destruct (start_collection_goes_ahead s s' Hc Hok) as (new & label & ->).
  split; [reflexivity|]. now rewrite process_queue_fields.
Qed.

Lemma start_collection_keeps_queue_witness :
  let s := set_data_queue ["left over"] two_cities_stopped.1 in
  get_selected_cities s ≠ [] ∧
  start_collection s = Ok (state_of (start_collection s)) ∧
  data_queue (state_of (start_collection s)) = data_queue s ∧
  data_text (process_queue (state_of (start_collection s)))
    = rendered (data_queue s).
Proof.
  cbv zeta. split; [vm_compute; discriminate|].
  split; [vm_compute; reflexivity|].
  apply (start_collection_keeps_queue
           (set_data_queue ["left over"] two_cities_stopped.1)).
  - vm_compute; discriminate.
  - vm_compute; reflexivity.
Defined.

(** X6: [stop_collection] changes the flag, the worker list, the two
    buttons and the status line and nothing else: the queue, the log, the
    check boxes, the Spinbox text and the pending timers are as they were,
    and no random number is drawn; lines still queued are written by the
    next drain step. *)
Theorem stop_collection_frame (s : WeatherGUI) (w : World) :
  Forall (fun t => started t = true) (threads s) →
  ∃ s' w', stop_collection s w = Ok (s', w') ∧
    start_btn s' = normal ∧ stop_btn s' = disabled ∧
    info_label s' = ("Collection stopped", "red") ∧
    data_queue s' = data_queue s ∧
    data_text s' = data_text s ∧
    city_vars s' = city_vars s ∧
    thread_count s' = thread_count s ∧
    after_jobs s' = after_jobs s ∧
    rng w' = rng w ∧
    data_text (process_queue s') = data_text s +:+ rendered (data_queue s).
Proof.
  intros Hst. rewrite (stop_collection_fields s w Hst).
  eexists _, _. split; [reflexivity|].
  rewrite process_queue_fields. repeat split.
Qed.

Lemma stop_collection_frame_witness :
  let s := set_data_queue ["left over"] two_cities_collecting.1 in
  Forall (fun t => started t = true) (threads s) ∧
  ∃ s' w', stop_collection s two_cities_collecting.2 = Ok (s', w') ∧
    start_btn s' = normal ∧ stop_btn s' = disabled ∧
    info_label s' = ("Collection stopped", "red") ∧
    data_queue s' = data_queue s ∧
    data_text s' = data_text s ∧
    city_vars s' = city_vars s ∧
    thread_count s' = thread_count s ∧
    after_jobs s' = after_jobs s ∧
    rng w' = rng two_cities_collecting.2 ∧
    data_text (process_queue s') = data_text s +:+ rendered (data_queue s).
Proof.
  cbv zeta. split; [vm_compute; repeat constructor|].
  apply (stop_collection_frame
           (set_data_queue ["left over"] two_cities_collecting.1)
           two_cities_collecting.2).
  vm_compute; repeat constructor.
Defined.

(** X7: a second [stop_collection] right after the first changes nothing
    and takes no time: with the worker list empty there is nothing to
    join. *)
Theorem stop_collection_twice (s : WeatherGUI) (w : World) :
  Forall (fun t => started t = true) (threads s) →
  ∃ s' w', stop_collection s w = Ok (s', w') ∧
    stop_collection s' w' = Ok (s', w').
Proof.
  intros Hst. rewrite (stop_collection_fields s w Hst).
  eexists _, _. split; [reflexivity|].
  rewrite stop_collection_fields by constructor.
  cbn [threads after_stop fmap list_fmap join_waits Qcsum foldr].
  now rewrite tick_zero.
Qed.

Lemma stop_collection_twice_witness :
  Forall (fun t => started t = true) (threads two_cities_collecting.1) ∧
  ∃ s' w',
    stop_collection two_cities_collecting.1 two_cities_collecting.2
      = Ok (s', w') ∧
    stop_collection s' w' = Ok (s', w').
Proof.
  split; [vm_compute; repeat constructor|].
  apply (stop_collection_twice two_cities_collecting.1 two_cities_collecting.2).
  vm_compute; repeat constructor.
Defined.

(** X8: [stop_collection] followed by [start_collection] with some city
    selected and a non-zero count between -2^53 and 2^53: both return, and
    the worker list then holds the newly created workers only, one per
    selected city, with the flag up, the log erased and the queue as it was
    before the stop. *)
Theorem stop_then_start (s : WeatherGUI) (w : World) (n : Z) :
  Forall (fun t => started t = true) (threads s) →
  get_selected_cities s ≠ [] →
  int (thread_count s) = Some n →
  n ≠ 0 →
  - 2 ^ 53 ≤ n ≤ 2 ^ 53 →
  ∃ s1 w1 s2,
    stop_collection s w = Ok (s1, w1) ∧
    start_collection s1 = Ok s2 ∧
    threads s2 = imap (worker_for n) (get_selected_cities s) ∧
    collecting s2 = true ∧
    data_text s2 = "" ∧
    data_queue s2 = data_queue s.
Proof.
  intros Hst Hc Hint Hn Hb. rewrite (stop_collection_fields s w Hst).
  eexists (after_stop s), _, (after_start n (after_stop s)).
  split; [reflexivity|].
  split; [apply start_collection_completes;
          [exact Hc|exact Hint|now apply exact_delays_small]|].
  repeat split.
Qed.

Lemma stop_then_start_witness :
  Forall (fun t => started t = true) (threads two_cities_collecting.1) ∧
  get_selected_cities two_cities_collecting.1 ≠ [] ∧
  int (thread_count two_cities_collecting.1) = Some 2 ∧
  ∃ s1 w1 s2,
    stop_collection two_cities_collecting.1 two_cities_collecting.2
      = Ok (s1, w1) ∧
    start_collection s1 = Ok s2 ∧
    threads s2 = imap (worker_for 2) (get_selected_cities two_cities_collecting.1) ∧
    collecting s2 = true ∧
    data_text s2 = "" ∧
    data_queue s2 = data_queue two_cities_collecting.1.
Proof.
  split; [vm_compute; repeat constructor|].
  split; [vm_compute; discriminate|].
  split; [vm_compute; reflexivity|].
  apply (stop_then_start two_cities_collecting.1 two_cities_collecting.2 2).
  - vm_compute; repeat constructor.
  - vm_compute; discriminate.
  - vm_compute; reflexivity.
  - lia.
  - lia.
Defined.

(** * Further properties of the workers *)

Section Workers.

Lemma random_range (g : Random) :
  (0 ≤ (random g).1)%Qc ∧ ((random g).1 ≤ 1)%Qc.
Proof.
  unfold random.
  pose proof (randbelow_range (2 ^ 53) g ltac:(lia)) as Hr.
  destruct (randbelow (2 ^ 53) g) as [r g']. cbn [fst] in *.
  assert (Hd : (0 < Qc_of_Z (2 ^ 53))%Qc)
    by (apply (proj1 (Z2Qc_inj_lt 0 (2 ^ 53))); lia).
  assert (Hne : Qc_of_Z (2 ^ 53) ≠ Q2Qc 0).
  { intros E. rewrite E in Hd. now apply Qclt_not_eq in Hd. }
  split.
  - apply (Qcmult_lt_0_le_reg_r _ _ (Qc_of_Z (2 ^ 53)) Hd).
    rewrite Qcmult_0_l, test_field by exact Hne.
    apply Qc_of_Z_nonneg. lia.
  - apply (Qcmult_lt_0_le_reg_r _ _ (Qc_of_Z (2 ^ 53)) Hd).
    rewrite Qcmult_1_l, test_field by exact Hne.
    apply (proj1 (Z2Qc_inj_le r (2 ^ 53))). lia.
Qed.

Lemma uniform_range (a b : Qc) (g : Random) :
  (a ≤ b)%Qc → (a ≤ (uniform a b g).1)%Qc ∧ ((uniform a b g).1 ≤ b)%Qc.
Proof.
  intros Hab. unfold uniform.
  pose proof (random_range g) as [H0 H1].
  destruct (random g) as [u g']. cbn [fst] in *.
  assert (Hba : (0 ≤ b - a)%Qc).
  { unfold Qcminus. now apply Qcle_minus_iff in Hab. }
  split.
  - apply Qcle_add_nonneg. now apply Qcmult_nonneg_nonneg.
  - replace b with (a + (b - a) * 1)%Qc at 2 by ring.
    apply Qcplus_le_mono_l. now apply Qcmult_le_mono_nonneg_l.
Qed.

Lemma generate_mock_data_returns (self : WeatherDataCollector) (c : string)
    (w : World) :
  ∃ r w', generate_mock_data self c w = Some (r, w') ∧
    city r = c ∧
    -10 ≤ temperature r ≤ 40 ∧ 20 ≤ humidity r ≤ 100 ∧
    0 ≤ wind_speed r ≤ 50 ∧ condition r ∈ CONDITIONS ∧
    clock w' = clock w.
Proof.
  unfold generate_mock_data.
  destruct (randint_range (-10) 40 (rng w)) as (t & g1 & E1 & Ht); [lia|].
  destruct (randint_range 20 100 g1) as (h & g2 & E2 & Hh); [lia|].
  destruct (choice_elem CONDITIONS g2) as (cond & g3 & E3 & Hc); [discriminate|].
  destruct (randint_range 0 50 g3) as (ws & g4 & E4 & Hws); [lia|].
  rewrite E1; cbn [mbind option_bind]. rewrite E2; cbn [mbind option_bind].
  rewrite E3; cbn [mbind option_bind]. rewrite E4; cbn [mbind option_bind].
  eexists _, _. split; [reflexivity|]. cbn. auto 10.
Qed.

Lemma collect_weather_turn_flag_up (t : Thread) (s : WeatherGUI) (w : World) :
  collecting s = true →
  ∃ r d w',
    collect_weather_turn t s w =
      Some (set_phase (Sleeping d) t,
            set_data_queue (data_queue s ++ [to_string r]) s, w') ∧
    city r = target_city t ∧
    -10 ≤ temperature r ≤ 40 ∧ 20 ≤ humidity r ≤ 100 ∧
    0 ≤ wind_speed r ≤ 50 ∧ condition r ∈ CONDITIONS ∧
    (1 ≤ d)%Qc ∧ (d ≤ Qc_of_Z 3)%Qc ∧
    clock w' = clock w.
Proof.
  intros Hc. unfold collect_weather_turn, collect_weather_body. rewrite Hc.
  destruct (generate_mock_data_returns WeatherDataCollector_new (target_city t) w)
    as (r & w1 & E & Hcity & Ht & Hh & Hws & Hcond & Hclk).
  rewrite E. cbn [mbind option_bind].
  pose proof (uniform_range 1%Qc (Qc_of_Z 3) (rng w1)) as Hu.
  destruct (uniform 1%Qc (Qc_of_Z 3) (rng w1)) as [d g]. cbn [fst] in Hu.
  destruct Hu as [Hlo Hhi]; [done|].
  exists r, d. eexists. split; [reflexivity|].
  repeat split; assumption || lia.
Qed.

End Workers.

(** X9: a worker that takes the loop test of [collect_weather] while the
    flag is up generates one reading for its own city, with the values in
    their ranges, puts its rendering at the tail of the queue, changes
    nothing else of the object, and then sleeps between 1 and 3 time
    units. *)
Theorem collect_weather_turn_collects (t : Thread) (s : WeatherGUI) (w : World) :
  collecting s = true →
  ∃ r d w',
    collect_weather_turn t s w =
      Some (set_phase (Sleeping d) t,
            set_data_queue (data_queue s ++ [to_string r]) s, w') ∧
    city r = target_city t ∧
    -10 ≤ temperature r ≤ 40 ∧ 20 ≤ humidity r ≤ 100 ∧
    0 ≤ wind_speed r ≤ 50 ∧ condition r ∈ CONDITIONS ∧
    (1 ≤ d)%Qc ∧ (d ≤ Qc_of_Z 3)%Qc ∧
    clock w' = clock w.
Proof.
  intros Hc.
  destruct (collect_weather_turn_flag_up t s w Hc) as (r & d & w' & E & H).
  exists r, d, w'. split; [exact E|exact H].
Qed.

Lemma collect_weather_turn_collects_witness :
  collecting two_cities_collecting.1 = true ∧
  ∃ r d w',
    collect_weather_turn (mkThread "Tokyo" 0%Qc true AtLoopTest)
      two_cities_collecting.1 two_cities_collecting.2 =
      Some (set_phase (Sleeping d) (mkThread "Tokyo" 0%Qc true AtLoopTest),
            set_data_queue
              (data_queue two_cities_collecting.1 ++ [to_string r])
              two_cities_collecting.1, w') ∧
    city r = target_city (mkThread "Tokyo" 0%Qc true AtLoopTest) ∧
    -10 ≤ temperature r ≤ 40 ∧ 20 ≤ humidity r ≤ 100 ∧
    0 ≤ wind_speed r ≤ 50 ∧ condition r ∈ CONDITIONS ∧
    (1 ≤ d)%Qc ∧ (d ≤ Qc_of_Z 3)%Qc ∧
    clock w' = clock two_cities_collecting.2.
Proof.
  split; [vm_compute; reflexivity|].
  apply (collect_weather_turn_collects (mkThread "Tokyo" 0%Qc true AtLoopTest)
           two_cities_collecting.1 two_cities_collecting.2).
  vm_compute; reflexivity.
Defined.

(** X10: a worker that is still inside its sleep when [stop_collection]
    has finished its joins is dropped from the worker list but not ended.
    If collection is started again (some city selected, a non-zero count
    between -2^53 and 2^53) before that sleep runs out, the worker then
    finds the flag up at its loop test and queues a reading for its city,
    although the worker list holds the newly created workers only. *)
Theorem abandoned_worker_resumes (s sj : WeatherGUI) (w wj w2 : World)
    (i : nat) (t : Thread) (r : Qc) (n : Z) :
  Forall (fun t => started t = true) (threads s) →
  join_each (seq 0 (length (threads s))) (set_collecting false s) w
    = Ok (sj, wj) →
  threads sj !! i = Some t →
  at_phase t = Sleeping r →
  get_selected_cities s ≠ [] →
  int (thread_count s) = Some n →
  n ≠ 0 →
  - 2 ^ 53 ≤ n ≤ 2 ^ 53 →
  ∃ s1 s2,
    stop_collection s w = Ok (s1, wj) ∧
    threads s1 = [] ∧
    start_collection s1 = Ok s2 ∧
    threads s2 = imap (worker_for n) (get_selected_cities s) ∧
    elapse r (at_phase t) = AtLoopTest ∧
    ∃ rd d w3,
      collect_weather_turn (set_phase AtLoopTest t) s2 w2 =
        Some (set_phase (Sleeping d) t,
              set_data_queue (data_queue s2 ++ [to_string rd]) s2, w3) ∧
      city rd = target_city t.
Proof.
  intros Hst Hj Hi Hp Hc Hint Hn Hb.
  pose proof (stop_collection_fields s w Hst) as Hstop.
  assert (Hw : tick (Qcsum (join_waits 0 ((fun t => time_to_exit (at_phase t))
                                            <$> threads s))) w = wj).
  { unfold stop_collection in Hstop. cbn [threads set_collecting] in Hstop.
    rewrite Hj in Hstop. now injection Hstop. }
  rewrite Hw in Hstop.
  exists (after_stop s), (after_start n (after_stop s)).
  split; [exact Hstop|]. split; [reflexivity|].
  split; [apply start_collection_completes;
          [exact Hc|exact Hint|now apply exact_delays_small]|].
  split; [reflexivity|]. split.
  { rewrite Hp. cbn [elapse]. destruct (decide (r ≤ r)%Qc) as [|Hne];
      [reflexivity|]. exfalso. apply Hne. reflexivity. }
  destruct (collect_weather_turn_flag_up (set_phase AtLoopTest t)
              (after_start n (after_stop s)) w2 eq_refl)
    as (rd & d & w3 & E & Hcity & _).
  exists rd, d, w3. split; [exact E|exact Hcity].
Qed.

Lemma abandoned_worker_resumes_witness :
  let s := set_threads
             [mkThread "Tokyo" 0%Qc true (Sleeping (Qc_of_Z 5 * Q2Qc (1 # 2)))]
             two_cities_collecting.1 in
  let sj := set_threads
              [mkThread "Tokyo" 0%Qc true (Sleeping (Qc_of_Z 3 * Q2Qc (1 # 2)))]
              (set_collecting false two_cities_collecting.1) in
  let wj := tick 1%Qc two_cities_collecting.2 in
  let t := mkThread "Tokyo" 0%Qc true (Sleeping (Qc_of_Z 3 * Q2Qc (1 # 2))) in
  Forall (fun t => started t = true) (threads s) ∧
  join_each (seq 0 (length (threads s))) (set_collecting false s)
    two_cities_collecting.2 = Ok (sj, wj) ∧
  threads sj !! 0%nat = Some t ∧
  get_selected_cities s ≠ [] ∧
  int (thread_count s) = Some 2 ∧
  ∃ s1 s2,
    stop_collection s two_cities_collecting.2 = Ok (s1, wj) ∧
    threads s1 = [] ∧
    start_collection s1 = Ok s2 ∧
    threads s2 = imap (worker_for 2) (get_selected_cities s) ∧
    elapse (Qc_of_Z 3 * Q2Qc (1 # 2)) (at_phase t) = AtLoopTest ∧
    ∃ rd d w3,
      collect_weather_turn (set_phase AtLoopTest t) s2 sample_world =
        Some (set_phase (Sleeping d) t,
              set_data_queue (data_queue s2 ++ [to_string rd]) s2, w3) ∧
      city rd = target_city t.
Proof.
  cbv zeta.
  split; [vm_compute; repeat constructor|].
  split; [vm_compute; reflexivity|].
  split; [vm_compute; reflexivity|].
  split; [vm_compute; discriminate|].
  split; [vm_compute; reflexivity|].
  apply (abandoned_worker_resumes
           (set_threads
              [mkThread "Tokyo" 0%Qc true (Sleeping (Qc_of_Z 5 * Q2Qc (1 # 2)))]
              two_cities_collecting.1)
           (set_threads
              [mkThread "Tokyo" 0%Qc true (Sleeping (Qc_of_Z 3 * Q2Qc (1 # 2)))]
              (set_collecting false two_cities_collecting.1))
           two_cities_collecting.2 (tick 1%Qc two_cities_collecting.2)
           sample_world 0
           (mkThread "Tokyo" 0%Qc true (Sleeping (Qc_of_Z 3 * Q2Qc (1 # 2))))
           (Qc_of_Z 3 * Q2Qc (1 # 2))%Qc 2).
  - vm_compute; repeat constructor.
  - vm_compute; reflexivity.
  - vm_compute; reflexivity.
  - reflexivity.
  - vm_compute; discriminate.
  - vm_compute; reflexivity.
  - lia.
  - lia.
Defined.

(** * Further properties of the running program *)

Section Log.

Lemma rendered_nil_r (text : string) : text +:+ rendered [] = text.
Proof. apply string_app_empty_r. Qed.





(** No event adds or removes a timer but the firing of one, which sets the
    next. *)
Lemma dispatch_after_jobs (ev : event) (s : WeatherGUI) (w : World) :
  after_jobs s = [(100, cb_process_queue)] →
  after_jobs (state_of (dispatch ev (s, w))).1 = [(100, cb_process_queue)].
Proof.
  intros Hj. destruct ev; cbn [dispatch]; try exact Hj.
  - destruct (start_btn s); [|exact Hj].
    destruct (start_collection_cases s)
      as [[_ ->]|(new & _ & [[e ->]|[label ->]])]; exact Hj.
  - destruct (stop_btn s); [|exact Hj]. unfold stop_collection.
    assert (Hframe : ∀ positions s0 w0,
              after_jobs (state_of (join_each positions s0 w0)).1 = after_jobs s0).
    { induction positions as [|i rest IH]; intros s0 w0; [reflexivity|].
      cbn [join_each]. destruct (threads s0 !! i) as [t|]; [|reflexivity].
      destruct (join 1%Qc t); [|reflexivity]. now rewrite IH. }
    specialize (Hframe (seq 0 (length (threads (set_collecting false s))))
                  (set_collecting false s) w).
    destruct (join_each _ _ w) as [[s1 w1]|e [s1 w1]];
      cbn [state_of fst] in *; now rewrite <- Hj.
  - rewrite Hj. cbn [state_of fst]. rewrite process_queue_fields. reflexivity.
  - destruct (decide (0 ≤ dt)%Qc); exact Hj.
  - destruct (threads s !! i) as [t|]; [|exact Hj].
    destruct (at_phase t); try exact Hj.
    unfold collect_weather_turn. destruct (collecting s); [|exact Hj].
    destruct (collect_weather_body_total (target_city t) s w)
      as (s1 & w1 & d & E).
    rewrite E. apply collect_weather_body_puts in E as (r & w' & _ & ->).
    exact Hj.
  - destruct (collecting s); [|exact Hj].
    destruct (collect_weather_body_total c s w) as (s1 & w1 & d & E).
    rewrite E. apply collect_weather_body_puts in E as (r & w' & _ & ->).
    exact Hj.
Qed.

End Log.





(** X13: [process_queue] keeps itself scheduled: on an object with one
    [process_queue] timer pending (what its call at the end of [setup_ui]
    would leave), exactly one such timer is pending after any events, since
    each run of [process_queue] replaces the timer that fired and nothing
    else adds or cancels one; the drain step neither stops nor multiplies,
    also when a callback raises. *)
Theorem one_timer_pending (s : WeatherGUI) (w : World) (evs : list event) :
  after_jobs s = [(100, cb_process_queue)] →
  after_jobs (run evs (s, w)).1 = [(100, cb_process_queue)].
Proof.
  revert s w. induction evs as [|ev evs IH]; intros s w Hj; [exact Hj|].
  rewrite run_cons. pose proof (dispatch_after_jobs ev s w Hj) as Hj'.
  destruct (state_of (dispatch ev (s, w))) as [s1 w1]. now apply IH.
Qed.

Lemma one_timer_pending_witness :
  after_jobs zero_count = [(100, cb_process_queue)] ∧
  after_jobs
    (run [ClickStart; Timer; TypeThreadCount (text "2"); ClickStart;
          Elapse 1%Qc; WorkerTurn 0; Timer; Timer; ClickStop]
         (zero_count, sample_world)).1 = [(100, cb_process_queue)].
Proof.
  split; [reflexivity|].
  apply (one_timer_pending zero_count sample_world
           [ClickStart; Timer; TypeThreadCount (text "2"); ClickStart;
            Elapse 1%Qc; WorkerTurn 0; Timer; Timer; ClickStop]).
  reflexivity.
Defined.

(** X14: from a consistent object the check boxes stay those of [CITIES]
    whatever happens, so [get_selected_cities] returns cities of [CITIES]
    in the order of [CITIES], each at most once, and at most ten of
    them. *)
Theorem selection_from_cities (s : WeatherGUI) (w : World) (evs : list event) :
  well_formed s →
  fst <$> city_vars (run evs (s, w)).1 = CITIES ∧
  get_selected_cities (run evs (s, w)).1 `sublist_of` CITIES ∧
  NoDup (get_selected_cities (run evs (s, w)).1) ∧
  (length (get_selected_cities (run evs (s, w)).1) ≤ 10)%nat.
Proof.
  intros Hwf.
  destruct (run_well_formed evs s w Hwf) as (_ & _ & _ & Hk).
  pose proof (get_selected_cities_sublist (run evs (s, w)).1) as Hs.
  rewrite Hk in Hs. split; [exact Hk|]. split; [exact Hs|]. split.
  - eapply sublist_NoDup; [apply CITIES_NoDup|exact Hs].
  - apply sublist_length in Hs. exact Hs.
Qed.

Lemma selection_from_cities_witness :
  well_formed sample_gui ∧
  get_selected_cities
    (run [ToggleCity "Paris"; ToggleCity "Oslo"; ToggleCity "Tokyo";
          ToggleCity "Paris"] (sample_gui, sample_world)).1
    ≠ get_selected_cities sample_gui ∧
  fst <$> city_vars
    (run [ToggleCity "Paris"; ToggleCity "Oslo"; ToggleCity "Tokyo";
          ToggleCity "Paris"] (sample_gui, sample_world)).1 = CITIES ∧
  get_selected_cities
    (run [ToggleCity "Paris"; ToggleCity "Oslo"; ToggleCity "Tokyo";
          ToggleCity "Paris"] (sample_gui, sample_world)).1 `sublist_of` CITIES ∧
  NoDup (get_selected_cities
    (run [ToggleCity "Paris"; ToggleCity "Oslo"; ToggleCity "Tokyo";
          ToggleCity "Paris"] (sample_gui, sample_world)).1) ∧
  (length (get_selected_cities
    (run [ToggleCity "Paris"; ToggleCity "Oslo"; ToggleCity "Tokyo";
          ToggleCity "Paris"] (sample_gui, sample_world)).1) ≤ 10)%nat.
Proof.
  split; [apply (bool_decide_unpack _); vm_compute; exact I|].
  split; [vm_compute; discriminate|].
  apply (selection_from_cities sample_gui sample_world
           [ToggleCity "Paris"; ToggleCity "Oslo"; ToggleCity "Tokyo";
            ToggleCity "Paris"]).
  apply (bool_decide_unpack _); vm_compute; exact I.
Defined.

(** X15: from a consistent object the listed workers are, whatever
    happens, started daemon threads for cities of [CITIES]; a city can be
    listed more than once, after a start that was aborted with workers
    already listed. *)
Theorem workers_started_daemons (s : WeatherGUI) (w : World)
    (evs : list event) :
  well_formed s →
  Forall (fun t => daemon t = true ∧ started t = true ∧
                   target_city t ∈ CITIES)
         (threads (run evs (s, w)).1).
Proof.
  intros Hwf.
  destruct (run_well_formed evs s w Hwf) as (_ & _ & Hst & _).
  eapply Forall_impl; [exact Hst|]. intros t (H1 & H2 & H3). now repeat split.
Qed.

Lemma workers_started_daemons_witness :
  well_formed two_cities ∧
  target_city <$> threads
    (run [TypeThreadCount huge_negative; ClickStart;
          TypeThreadCount (text "2"); ClickStart; Elapse 1%Qc; WorkerTurn 1]
         (two_cities, sample_world)).1 = ["Tokyo"; "Tokyo"; "Paris"] ∧
  Forall (fun t => daemon t = true ∧ started t = true ∧
                   target_city t ∈ CITIES)
    (threads
       (run [TypeThreadCount huge_negative; ClickStart;
             TypeThreadCount (text "2"); ClickStart; Elapse 1%Qc; WorkerTurn 1]
            (two_cities, sample_world)).1).
Proof.
  split; [apply (bool_decide_unpack _); vm_compute; exact I|].
  split; [vm_compute; reflexivity|].
  apply (workers_started_daemons two_cities sample_world
           [TypeThreadCount huge_negative; ClickStart;
            TypeThreadCount (text "2"); ClickStart; Elapse 1%Qc; WorkerTurn 1]).
  apply (bool_decide_unpack _); vm_compute; exact I.
Defined.

(** X16: from a consistent object, whatever happens, the worker list is
    empty, Start is enabled and Stop is disabled whenever the flag is down,
    also after a start was aborted. *)
Theorem flag_down_no_workers (s : WeatherGUI) (w : World) (evs : list event) :
  well_formed s →
  collecting (run evs (s, w)).1 = false →
  threads (run evs (s, w)).1 = [] ∧
  start_btn (run evs (s, w)).1 = normal ∧
  stop_btn (run evs (s, w)).1 = disabled.
Proof.
  intros Hwf Hc.
  destruct (run_well_formed evs s w Hwf) as (Hex & Hno & _).
  destruct (Hno Hc) as [Hb Hnil]. split; [exact Hnil|]. split; [exact Hb|].
  destruct Hex as [[_ H]|[H _]]; [exact H|congruence].
Qed.

Lemma flag_down_no_workers_witness :
  well_formed sample_gui ∧
  collecting
    (run [TypeThreadCount (text "x"); ClickStart; TypeThreadCount (text "2");
          ClickStart; Elapse 1%Qc; WorkerTurn 0; ClickStop]
         (sample_gui, sample_world)).1 = false ∧
  threads
    (run [TypeThreadCount (text "x"); ClickStart; TypeThreadCount (text "2");
          ClickStart; Elapse 1%Qc; WorkerTurn 0; ClickStop]
         (sample_gui, sample_world)).1 = [] ∧
  start_btn
    (run [TypeThreadCount (text "x"); ClickStart; TypeThreadCount (text "2");
          ClickStart; Elapse 1%Qc; WorkerTurn 0; ClickStop]
         (sample_gui, sample_world)).1 = normal ∧
  stop_btn
    (run [TypeThreadCount (text "x"); ClickStart; TypeThreadCount (text "2");
          ClickStart; Elapse 1%Qc; WorkerTurn 0; ClickStop]
         (sample_gui, sample_world)).1 = disabled.
Proof.
  split; [apply (bool_decide_unpack _); vm_compute; exact I|].
  split; [vm_compute; reflexivity|].
  apply (flag_down_no_workers sample_gui sample_world
           [TypeThreadCount (text "x"); ClickStart; TypeThreadCount (text "2");
            ClickStart; Elapse 1%Qc; WorkerTurn 0; ClickStop]).
  - apply (bool_decide_unpack _); vm_compute; exact I.
  - vm_compute; reflexivity.
Defined.

(** X17: [on_closing], called on any consistent object, returns normally
    and leaves the flag down and the worker list empty, through
    [stop_collection] when the flag is up and by doing nothing when it is
    down; the log and the queue are as they were. *)
Theorem on_closing_returns (s : WeatherGUI) (w : World) :
  well_formed s →
  ∃ s' w',
    on_closing s w = Ok (s', w') ∧
    collecting s' = false ∧
    threads s' = [] ∧
    data_text s' = data_text s ∧
    data_queue s' = data_queue s.
Proof.
  intros (Hex & Hno & Hst & _).
  unfold on_closing. destruct (collecting s) eqn:Hc.
  - destruct (stop_collection_after_stop s w Hst) as (w' & ->).
    exists (after_stop s), w'. repeat split.
  - exists s, w. split; [reflexivity|]. split; [exact Hc|].
    split; [apply Hno; reflexivity|]. now split.
Qed.

Lemma on_closing_returns_witness :
  well_formed two_cities_collecting.1 ∧
  collecting two_cities_collecting.1 = true ∧
  ∃ s' w',
    on_closing two_cities_collecting.1 two_cities_collecting.2 = Ok (s', w') ∧
    collecting s' = false ∧
    threads s' = [] ∧
    data_text s' = data_text two_cities_collecting.1 ∧
    data_queue s' = data_queue two_cities_collecting.1.
Proof.
  split; [apply (bool_decide_unpack _); vm_compute; exact I|].
  split; [vm_compute; reflexivity|].
  apply (on_closing_returns two_cities_collecting.1 two_cities_collecting.2).
  apply (bool_decide_unpack _); vm_compute; exact I.
Defined.

(** X18: when the timer fires does not matter for the log: draining,
    receiving more items and draining again writes the same log as one
    drain after all items have arrived; and a drain right after a drain
    writes nothing. *)
Theorem process_queue_split (s : WeatherGUI) (items : list string) :
  data_text (process_queue (set_data_queue items (process_queue s)))
  = data_text (process_queue (set_data_queue (data_queue s ++ items) s)) ∧
  data_text (process_queue (process_queue s)) = data_text (process_queue s) ∧
  data_queue (process_queue (process_queue s)) = [].
Proof.
  rewrite !process_queue_fields. cbn [data_text data_queue set_data_queue].
  split; [|split; [apply rendered_nil_r|reflexivity]].
  now rewrite rendered_app, string_app_assoc.
Qed.

(** X19: when workers put while the loop of [process_queue] runs, the loop
    still ends, leaving the queue empty, at the first [get_nowait] that
    finds nothing; it has then written, in the order they were put, the
    items queued at its start followed by those of the batches that arrived
    in time, and the later batches are left for the next run.  With no
    arrivals it is the plain loop. *)
Theorem process_queue_loop_concurrent (arrivals : list (list string))
    (q : Queue) (text : string) :
  (∃ k : nat,
     drain_arriving arrivals q text =
     ([], text +:+ rendered (q ++ concat (take k arrivals)), drop k arrivals)) ∧
  drain_arriving [] q text = (drain q text, []) ∧
  drain_arriving arrivals [] text = ([], text, arrivals).
Proof.
  split; [apply drain_arriving_fifo|]. split.
  - destruct q as [|data rest]; reflexivity.
  - destruct arrivals; reflexivity.
Qed.

Section Stagger.

Lemma elapse_delaying (dt r : Qc) :
  (r ≤ dt)%Qc → elapse dt (Delaying r) = AtLoopTest.
Proof. intros H. cbn. now destruct (decide (r ≤ dt)%Qc). Qed.

End Stagger.

(** X20: with a positive count [n] (and no more than 2^32 cities
    selected) no worker is delayed by more than [(n - 1) * 0.5]: every
    worker a start creates has a delay between 0 and that bound, and once
    that much time has passed every one of them has reached the loop
    test. *)
Theorem stagger_bounded (s : WeatherGUI) (n : Z) (dt : Qc) :
  get_selected_cities s ≠ [] →
  Z.of_nat (length (get_selected_cities s)) ≤ 2 ^ 32 →
  int (thread_count s) = Some n →
  1 ≤ n →
  (Qc_of_Z (n - 1) * Q2Qc (1 # 2) ≤ dt)%Qc →
  ∃ s' new,
    start_collection s = Ok s' ∧
    threads s' = threads s ++ new ∧
    Forall (fun t => (0 ≤ target_delay t)%Qc ∧
                     (target_delay t ≤ Qc_of_Z (n - 1) * Q2Qc (1 # 2))%Qc ∧
                     elapse dt (at_phase t) = AtLoopTest) new.
Proof.
  intros Hc Hk Hint Hn Hdt.
  assert (He : exact_delays n (length (get_selected_cities s)))
    by (split; [lia|right; split; lia]).
  rewrite (start_collection_completes s n Hc Hint He).
  exists (after_start n s), (imap (worker_for n) (get_selected_cities s)).
  split; [reflexivity|]. split; [reflexivity|].
  apply Forall_forall. intros t Ht.
  apply elem_of_lookup_imap in Ht as (k & c & -> & Hkc).
  apply lookup_lt_Some in Hkc.
  pose proof (Z.mod_pos_bound (Z.of_nat k) n ltac:(lia)) as Hb.
  assert (Hhi : (target_delay (worker_for n k c)
                 ≤ Qc_of_Z (n - 1) * Q2Qc (1 # 2))%Qc).
  { apply (half_of_mono (Z.of_nat k `mod` n) (n - 1)). lia. }
  split; [|split; [exact Hhi|]].
  - apply Qcnot_lt_le, half_of_nonneg. lia.
  - rewrite worker_for_phase by lia. apply elapse_delaying.
    etransitivity; [exact Hhi|exact Hdt].
Qed.

Lemma stagger_bounded_witness :
  get_selected_cities three_workers ≠ [] ∧
  int (thread_count three_workers) = Some 3 ∧
  (Qc_of_Z (3 - 1) * Q2Qc (1 # 2) ≤ 1)%Qc ∧
  ∃ s' new,
    start_collection three_workers = Ok s' ∧
    threads s' = threads three_workers ++ new ∧
    Forall (fun t => (0 ≤ target_delay t)%Qc ∧
                     (target_delay t ≤ Qc_of_Z (3 - 1) * Q2Qc (1 # 2))%Qc ∧
                     elapse 1%Qc (at_phase t) = AtLoopTest) new.
Proof.
  split; [vm_compute; discriminate|]. split; [vm_compute; reflexivity|].
  split; [vm_compute; discriminate|].
  apply (stagger_bounded three_workers 3 1%Qc).
  - vm_compute; discriminate.
  - vm_compute; discriminate.
  - vm_compute; reflexivity.
  - lia.
  - vm_compute; discriminate.
Defined.

(** * Construction and aborted starts *)

Section Aborts.

Lemma one_mod_negative (n : Z) : n ≤ -2 → 1 `mod` n = n + 1.
Proof.
  intros Hn. symmetry. apply (Z.mod_unique_neg 1 n (-1)); lia.
Qed.

Lemma float_zero : float 0 = Some (Qc_of_Z 0).
Proof. reflexivity. Qed.

Lemma zero_delay : (Qc_of_Z 0 * half)%Qc = 0%Qc.
Proof. now apply Qc_is_canon. Qed.

End Aborts.

(** X21: [setup_ui] never returns: whatever the object, it raises
    [AttributeError] at [self.thread_count.set(3)], after the check boxes
    (all ticked), the two buttons (Start enabled, Stop disabled) and the
    Spinbox (showing 1) were created and before the log and the status line
    exist and before the first [process_queue()]: no timer is set.  So
    [WeatherGUI(root)] raises and yields no object. *)
Theorem setup_ui_raises (s : WeatherGUI) :
  ∃ s', setup_ui s = Raise AttributeError s' ∧
    start_btn s' = normal ∧ stop_btn s' = disabled ∧
    thread_count s' = text "1" ∧
    after_jobs s' = after_jobs s ∧
    data_text s' = data_text s ∧
    info_label s' = info_label s ∧
    collecting s' = collecting s ∧
    threads s' = threads s ∧
    (city_vars s = [] → city_vars s' = (fun c => (c, true)) <$> CITIES) ∧
    completed WeatherGUI_new = false ∧
    after_jobs (state_of WeatherGUI_new) = [].
Proof.
  eexists. split; [reflexivity|]. cbn.
  do 8 (split; [reflexivity|]). split; [now intros ->|]. split; reflexivity.
Qed.

(** X22: from a consistent object exactly one of the two buttons is
    enabled after any events, also when callbacks raised; and if the
    buttons are in step with the flag to begin with and every callback
    along the way returned normally, they are in step with the flag at the
    end: Start is disabled exactly when the flag is up and Stop exactly
    when it is down. *)
Theorem buttons_follow_completed_runs (s : WeatherGUI) (w : World)
    (evs : list event) :
  well_formed s →
  buttons_exclusive (run evs (s, w)).1 ∧
  (buttons_follow_flag s →
   all_completed evs (s, w) = true →
   buttons_follow_flag (run evs (s, w)).1).
Proof.
  intros Hwf. split.
  - apply (run_well_formed evs s w Hwf).
  - intros Hf Hall. now apply run_follows.
Qed.

Lemma buttons_follow_completed_runs_witness :
  well_formed sample_gui ∧
  buttons_follow_flag sample_gui ∧
  all_completed [ToggleCity "London"; ClickStart; Elapse 1%Qc; WorkerTurn 0;
                 Timer; ClickStop; ClickStart] (sample_gui, sample_world)
    = true ∧
  buttons_exclusive
    (run [ToggleCity "London"; ClickStart; Elapse 1%Qc; WorkerTurn 0;
          Timer; ClickStop; ClickStart] (sample_gui, sample_world)).1 ∧
  (buttons_follow_flag sample_gui →
   all_completed [ToggleCity "London"; ClickStart; Elapse 1%Qc; WorkerTurn 0;
                  Timer; ClickStop; ClickStart] (sample_gui, sample_world)
     = true →
   buttons_follow_flag
     (run [ToggleCity "London"; ClickStart; Elapse 1%Qc; WorkerTurn 0;
           Timer; ClickStop; ClickStart] (sample_gui, sample_world)).1).
Proof.
  split; [apply (bool_decide_unpack _); vm_compute; exact I|].
  split; [unfold buttons_follow_flag; vm_compute; now repeat split|].
  split; [vm_compute; reflexivity|].
  apply (buttons_follow_completed_runs sample_gui sample_world
           [ToggleCity "London"; ClickStart; Elapse 1%Qc; WorkerTurn 0;
            Timer; ClickStop; ClickStart]).
  apply (bool_decide_unpack _); vm_compute; exact I.
Defined.

(** X23: with two or more cities selected and a count at or below
    -2^1024 - 1, [start_collection] raises [OverflowError] at the second
    city, where [1 % n] is too large in magnitude for a float: the flag is
    up and the log erased, the worker for the first city has been listed
    and started with a zero delay, and the buttons are as they were. *)
Theorem start_collection_overflow_aborts (s : WeatherGUI) (n : Z)
    (c1 c2 : string) (rest : list string) :
  get_selected_cities s = c1 :: c2 :: rest →
  int (thread_count s) = Some n →
  n ≤ - 2 ^ 1024 - 1 →
  ∃ s', start_collection s = Raise OverflowError s' ∧
    collecting s' = true ∧
    data_text s' = "" ∧
    threads s' = threads s ++ [mkThread c1 0%Qc true (Delaying 0%Qc)] ∧
    start_btn s' = start_btn s ∧
    stop_btn s' = stop_btn s ∧
    info_label s' = info_label s.
Proof.
  intros Hc Hint Hn.
  assert (Hbig : 0 < 2 ^ 1024) by (apply Z.pow_pos_nonneg; lia).
  unfold start_collection. rewrite Hc.
  cbn [thread_count set_data_text set_collecting]. rewrite Hint.
  cbn [spawn]. unfold mod_.
  destruct (decide (n = 0)) as [|_]; [lia|].
  rewrite Z.mod_0_l by lia. unfold times_half at 1. rewrite float_zero.
  cbn [fmap option_fmap option_map]. rewrite zero_delay.
  change (0 + 1) with 1. rewrite one_mod_negative by lia.
  unfold times_half. rewrite float_overflow by lia.
  cbn [fmap option_fmap option_map].
  eexists. split; [reflexivity|]. cbn [collecting data_text threads start_btn
    stop_btn info_label set_threads].
  do 2 (split; [reflexivity|]). split; [|now repeat split].
  reflexivity.
Qed.

Lemma start_collection_overflow_aborts_witness :
  get_selected_cities (set_thread_count huge_negative two_cities)
    = ["Tokyo"; "Paris"] ∧
  int (thread_count (set_thread_count huge_negative two_cities))
    = Some (- 10 ^ 309) ∧
  ∃ s', start_collection (set_thread_count huge_negative two_cities)
          = Raise OverflowError s' ∧
    collecting s' = true ∧
    data_text s' = "" ∧
    threads s' = threads (set_thread_count huge_negative two_cities)
                 ++ [mkThread "Tokyo" 0%Qc true (Delaying 0%Qc)] ∧
    start_btn s' = start_btn (set_thread_count huge_negative two_cities) ∧
    stop_btn s' = stop_btn (set_thread_count huge_negative two_cities) ∧
    info_label s' = info_label (set_thread_count huge_negative two_cities).
Proof.
  split; [vm_compute; reflexivity|]. split; [vm_compute; reflexivity|].
  apply (start_collection_overflow_aborts
           (set_thread_count huge_negative two_cities) (- 10 ^ 309)
           "Tokyo" "Paris" []).
  - vm_compute; reflexivity.
  - vm_compute; reflexivity.
  - vm_compute; discriminate.
Defined.
